(** * ecs-spring-boot-infrastructure: the CDK constructs and their stack

    A shallow embedding of the five constructs under [lib/constructs] and of
    [EcsProjectStack], which composes them.  A construct's constructor is a
    program in a small state-and-error monad: the state is the stack under
    synthesis, that is the chronological trace of what the constructor asks
    the CDK library to declare, together with the store of the security
    groups, which are the only objects mutated after their creation, and
    with the environment of the stack, which the lookup of the hosted zone
    needs.  Of the library the model has what the constructs get back from
    it: the zone that a lookup returns, the security groups and the outputs
    that the load-balanced service brings with it, and the rule that a
    group skips because it has it already.

    Numbers are integers ([Z]); a field written [x?: T] in a props interface
    is an [option T], and [a ?? b] is the nullish coalescing of TypeScript. *)

From Stdlib Require Import ZArith Ascii String List Bool Lia.
From stdpp Require Import base option list strings pretty.

Local Open Scope Z_scope.
Local Open Scope string_scope.
Local Open Scope list_scope.

(** ** Values *)

(** [a ?? b]: [b] when [a] is undefined, [a] otherwise. *)
Notation "a ?? b" := (default b a) (at level 45, left associativity).

(** The path of a construct in the construct tree, root first. *)
Definition Path : Type := list string.

(** [new X(scope, id)] lives at the scope's path followed by [id]. *)
Definition child (scope : Path) (id : string) : Path := scope ++ [id].

(** A string known at synthesis, or an attribute of a declared resource that
    the provider resolves at deployment (a CDK token). *)
Inductive Num : Type :=
| NumLit (n : Z)
| NumAtt (resource : Path) (attribute : string).

Inductive Str : Type :=
| Lit (s : string)
| Att (resource : Path) (attribute : string)
| NumToString (n : Num)
| Append (a b : Str).

Inductive Duration : Type :=
| seconds (n : Z)
| minutes (n : Z)
| days (n : Z).

Inductive RemovalPolicy : Type := RETAIN | DESTROY.

Inductive SubnetType : Type := PUBLIC | PRIVATE_WITH_EGRESS | PRIVATE_ISOLATED.

Record InstanceType : Type := {
  instanceClass : string;
  instanceSize : string
}.

Definition T3_MICRO : InstanceType :=
  {| instanceClass := "t3"; instanceSize := "micro" |}.

(** ** Security groups *)

(** A security group is an object with identity: a handle into the store. *)
Definition SgHandle : Type := nat.

Inductive Peer : Type :=
| anyIpv4
| sgPeer (sg : SgHandle).

Inductive Port : Type :=
| tcp (port : Num).

Record Rule : Type := {
  rule_peer : Peer;
  rule_port : Port;
  rule_description : string
}.

Record SecurityGroup : Type := {
  sg_vpc : Path;
  sg_description : string;
  allowAllOutbound : bool;
  ingressRules : list Rule;
  egressRules : list Rule
}.

(** What [allowConnectionsFrom] accepts: an [ec2.SecurityGroup] itself, or
    any other connectable with the security groups of its connections. *)
Inductive IConnectable : Type :=
| IsSecurityGroup (sg : SgHandle)
| HasConnections (securityGroups : list SgHandle).

(** ** Declarations handed to the CDK library *)

Record SubnetConfiguration : Type := {
  cidrMask : Z;
  subnet_name : string;
  subnetType : SubnetType
}.

Record VpcProps : Type := {
  vpc_maxAzs : Z;
  vpc_natGateways : Z;
  subnetConfiguration : list SubnetConfiguration;
  enableDnsHostnames : bool;
  enableDnsSupport : bool
}.

Record CertificateProps : Type := {
  cert_domainName : string;
  cert_subjectAlternativeNames : list string;
  cert_validation : Path
}.

Record SecretProps : Type := {
  secretStringTemplate : list (string * string);
  generateStringKey : string;
  excludeCharacters : string;
  passwordLength : Z;
  secret_description : string
}.

Record DatabaseInstanceProps : Type := {
  engine : string;
  engineVersion : string;
  dbi_instanceType : InstanceType;
  dbi_vpc : Path;
  dbi_vpcSubnets : SubnetType;
  credentials : Path;
  dbi_databaseName : string;
  dbi_allocatedStorage : Z;
  dbi_maxAllocatedStorage : Z;
  deleteAutomatedBackups : bool;
  backupRetention : Duration;
  dbi_deletionProtection : bool;
  removalPolicy : RemovalPolicy;
  dbi_securityGroups : list SgHandle;
  monitoringInterval : Duration;
  enablePerformanceInsights : bool;
  performanceInsightRetention : string
}.

Record KeyPairProps : Type := {
  kp_keyPairName : string;
  kp_type : string;
  kp_format : string
}.

Record RoleProps : Type := {
  assumedBy : string;
  role_description : string;
  managedPolicies : list string
}.

Record InstanceProps : Type := {
  inst_vpc : Path;
  inst_vpcSubnets : SubnetType;
  inst_instanceType : InstanceType;
  machineImage : string;
  inst_keyPair : Path;
  inst_securityGroup : SgHandle;
  userData : list string;
  inst_role : Path;
  userDataCausesReplacement : bool
}.

Record RepositoryProps : Type := {
  repositoryName : string;
  imageScanOnPush : bool;
  lifecycleRules : list (string * Z);
  repo_removalPolicy : RemovalPolicy
}.

Record LogGroupProps : Type := {
  logGroupName : string;
  retention : string;
  lg_removalPolicy : RemovalPolicy
}.

Record ClusterProps : Type := {
  cluster_vpc : Path;
  clusterName : string;
  containerInsights : bool
}.

Record AssetImage : Type := {
  asset_directory : string;
  buildArgs : list (string * string);
  platform : string
}.

Record TaskImageOptions : Type := {
  image : AssetImage;
  containerPort : Z;
  environment : list (string * Str);
  secrets : list (string * (Path * string));
  logStreamPrefix : string;
  logGroup : Path
}.

Record FargateServiceProps : Type := {
  svc_cluster : Path;
  serviceName : string;
  svc_cpu : Z;
  svc_memoryLimitMiB : Z;
  svc_desiredCount : Z;
  taskImageOptions : TaskImageOptions;
  publicLoadBalancer : bool;
  listenerPort : Z;
  protocol : string;
  svc_certificate : Path;
  redirectHTTP : bool;
  platformVersion : string
}.

Record HealthCheck : Type := {
  hc_path : string;
  healthyHttpCodes : string;
  hc_interval : Duration;
  hc_timeout : Duration;
  healthyThresholdCount : Z;
  unhealthyThresholdCount : Z
}.

Record ScalingProps : Type := {
  targetUtilizationPercent : Z;
  scaleInCooldown : Duration;
  scaleOutCooldown : Duration
}.

Record ARecordProps : Type := {
  zone : Path;
  recordName : string;
  target : Path
}.

Record CfnOutputProps : Type := {
  value : Str;
  out_description : option string
}.

Inductive Resource : Type :=
| Vpc (p : VpcProps)
| HostedZoneLookup (domainName : string) (zoneId : string)
| Certificate (p : CertificateProps)
| Secret (p : SecretProps)
| SecurityGroupR (sg : SgHandle)
| DatabaseInstance (p : DatabaseInstanceProps)
| KeyPair (p : KeyPairProps)
| Role (p : RoleProps)
| Instance (p : InstanceProps)
| Repository (p : RepositoryProps)
| LogGroup (p : LogGroupProps)
| Cluster (p : ClusterProps)
| ApplicationLoadBalancedFargateService (p : FargateServiceProps)
| ScalableTarget (service : Path) (minCapacity maxCapacity : Z)
| CpuScaling (p : ScalingProps)
| MemoryScaling (p : ScalingProps)
| ARecord (p : ARecordProps)
| CfnOutput (p : CfnOutputProps).

(** ** The stack under synthesis *)

Inductive Event : Type :=
| Created (scope : Path) (id : string) (r : Resource)
| IngressAdded (sg : SgHandle) (rule : Rule)
| HealthCheckConfigured (service : Path) (hc : HealthCheck)
| Tagged (path : Path) (key val : string).

(** The account and the region that a stack is for: [StackProps.env]. *)
Record Environment : Type := {
  account : option string;
  region : option string
}.

Definition noEnvironment : Environment :=
  {| account := None; region := None |}.

(** Both the account and the region are known at synthesis. *)
Definition resolved (e : Environment) : bool :=
  match account e, region e with
  | Some _, Some _ => true
  | _, _ => false
  end.

Record Stack : Type := {
  trace : list Event;
  securityGroups : list SecurityGroup;
  stackEnv : Environment
}.

Definition emptyStack : Stack :=
  {| trace := []; securityGroups := []; stackEnv := noEnvironment |}.

(** What is thrown: an error of the library, with its message, or the
    [TypeError] of JavaScript. *)
Inductive Error : Type :=
| LibraryError (msg : string)
| TypeError (msg : string).

Inductive Result (A : Type) : Type :=
| Ok (a : A) (s : Stack)
| Err (e : Error).
Arguments Ok {A} a s.
Arguments Err {A} e.

(** A constructor or method of a construct: it reads and extends the stack,
    and either returns or throws. *)
Definition M (A : Type) : Type := Stack -> Result A.

Definition ret {A} (a : A) : M A := fun s => Ok a s.

Definition bind {A B} (k : A -> M B) (m : M A) : M B :=
  fun s => match m s with
           | Ok a s' => k a s'
           | Err e => Err e
           end.

Definition throw {A} (e : Error) : M A := fun _ => Err e.

#[global] Instance M_ret : MRet M := @ret.
#[global] Instance M_bind : MBind M := @bind.

(** [e] is recorded at the end of the trace. *)
Definition emit (e : Event) : M unit :=
  fun s => Ok tt {| trace := trace s ++ [e];
                    securityGroups := securityGroups s;
                    stackEnv := stackEnv s |}.

(** [super(scope, id, props)] of a stack: the environment given, none when
    [props.env] is absent. *)
Definition setEnvironment (e : option Environment) : M unit :=
  fun s => Ok tt {| trace := trace s;
                    securityGroups := securityGroups s;
                    stackEnv := e ?? noEnvironment |}.

(** [new R(scope, id, props)] for a resource of the library. *)
Definition create (scope : Path) (id : string) (r : Resource) : M Path :=
  emit (Created scope id r);; ret (child scope id).

(** [cdk.Tags.of(x).add(key, val)]. *)
Definition addTag (x : Path) (key val : string) : M unit :=
  emit (Tagged x key val).

(** [new ec2.SecurityGroup(scope, id, {vpc, description, allowAllOutbound})]:
    a fresh object with no rule of either direction. *)
Definition newSecurityGroup (scope : Path) (id : string) (vpc : Path)
    (description : string) (outbound : bool) : M SgHandle :=
  fun s =>
    let h := length (securityGroups s) in
    Ok h {| trace := trace s ++ [Created scope id (SecurityGroupR h)];
            securityGroups := securityGroups s ++
              [{| sg_vpc := vpc; sg_description := description;
                  allowAllOutbound := outbound;
                  ingressRules := []; egressRules := [] |}];
            stackEnv := stackEnv s |}.

(** A security group that the library creates inside one of its own
    constructs, with the rules that the library gives it; [g] is given the
    handle of the new group. *)
Definition newLibraryGroup (scope : Path) (id : string)
    (g : SgHandle -> SecurityGroup) : M SgHandle :=
  fun s =>
    let h := length (securityGroups s) in
    Ok h {| trace := trace s ++ [Created scope id (SecurityGroupR h)];
            securityGroups := securityGroups s ++ [g h];
            stackEnv := stackEnv s |}.

Definition withIngress (r : Rule) (g : SecurityGroup) : SecurityGroup :=
  {| sg_vpc := sg_vpc g; sg_description := sg_description g;
     allowAllOutbound := allowAllOutbound g;
     ingressRules := ingressRules g ++ [r];
     egressRules := egressRules g |}.

Definition samePeer (a b : Peer) : bool :=
  match a, b with
  | anyIpv4, anyIpv4 => true
  | sgPeer x, sgPeer y => Nat.eqb x y
  | _, _ => false
  end.

(** Two ports are told apart by how they print: a port known at synthesis
    prints as its number, and every port that is a token prints alike. *)
Definition samePort (a b : Port) : bool :=
  match a, b with
  | tcp (NumLit m), tcp (NumLit n) => Z.eqb m n
  | tcp (NumAtt _ _), tcp (NumAtt _ _) => true
  | _, _ => false
  end.

(** The group already has an ingress rule for this peer and this port,
    under whatever description. *)
Definition hasRule (peer : Peer) (port : Port) (rules : list Rule) : bool :=
  existsb (fun r => samePeer (rule_peer r) peer && samePort (rule_port r) port)
    rules.

(** [sg.addIngressRule(peer, port, description)] mutates the object [sg],
    unless [sg] has a rule for the peer and the port already: the library
    skips a duplicate, and the first description stays. *)
Definition addIngressRule (sg : SgHandle) (peer : Peer) (port : Port)
    (description : string) : M unit :=
  fun s =>
    let r := {| rule_peer := peer; rule_port := port;
                rule_description := description |} in
    match securityGroups s !! sg with
    | Some g =>
        if hasRule peer port (ingressRules g) then Ok tt s
        else
          Ok tt {| trace := trace s ++ [IngressAdded sg r];
                   securityGroups :=
                     <[sg := withIngress r g]> (securityGroups s);
                   stackEnv := stackEnv s |}
    | None => Err (TypeError "addIngressRule of undefined")
    end.

(** ** lib/constructs/network-construct.ts *)

Module NetworkConstruct.

Record Props : Type := {
  maxAzs : option Z;
  natGateways : option Z
}.

Definition noProps : Props := {| maxAzs := None; natGateways := None |}.

Record t : Type := {
  vpc : Path;
  publicSubnets : Path * SubnetType;
  privateSubnets : Path * SubnetType;
  databaseSubnets : Path * SubnetType
}.

Definition new (scope : Path) (id : string) (props : Props) : M t :=
  let this := child scope id in
  let maxAzs := maxAzs props ?? 2 in
  let natGateways := natGateways props ?? 1 in
  vpc ← create this "Vpc" (Vpc {|
    vpc_maxAzs := maxAzs;
    vpc_natGateways := natGateways;
    subnetConfiguration := [
      {| cidrMask := 24; subnet_name := "Public"; subnetType := PUBLIC |};
      {| cidrMask := 24; subnet_name := "Private";
         subnetType := PRIVATE_WITH_EGRESS |};
      {| cidrMask := 24; subnet_name := "Database";
         subnetType := PRIVATE_ISOLATED |} ];
    enableDnsHostnames := true;
    enableDnsSupport := true |});
  addTag vpc "Component" "Network";;
  ret {| vpc := vpc;
         publicSubnets := (vpc, PUBLIC);
         privateSubnets := (vpc, PRIVATE_WITH_EGRESS);
         databaseSubnets := (vpc, PRIVATE_ISOLATED) |}.

End NetworkConstruct.

(** ** lib/constructs/dns-construct.ts *)

(** The first segment of [s] split at dots: [s.split('.')[0]]. *)
Fixpoint firstLabel (s : string) : string :=
  match s with
  | EmptyString => EmptyString
  | String c rest =>
      if Ascii.eqb c "."%char then EmptyString else String c (firstLabel rest)
  end.

Module DnsConstruct.

Record Props : Type := {
  domainName : string;
  subdomainName : option string;
  subjectAlternativeNames : option (list string)
}.

Record t : Type := {
  this : Path;
  hostedZone : Path;
  certificate : Path;
  fullDomainName : string
}.

(** [route53.HostedZone.fromLookup].  [hostedZones] is what the context of
    the app holds for the stack: the zone of a domain name that has been
    looked up for the account and the region of the stack, which are part
    of the key that the context keeps it under.  With no such zone the
    library refuses an empty domain name and a stack whose account or
    region is not known, and otherwise goes on with a dummy zone. *)
Definition fromLookup (hostedZones : string -> option string)
    (scope : Path) (id : string) (domain : string) : M Path :=
  match hostedZones domain with
  | Some z => create scope id (HostedZoneLookup domain z)
  | None =>
      match domain with
      | EmptyString =>
          throw (LibraryError
                   "Cannot use undefined value for attribute `domainName`")
      | String _ _ =>
          fun s =>
            if resolved (stackEnv s)
            then create scope id (HostedZoneLookup domain "DUMMY") s
            else Err (LibraryError
                        ("Cannot retrieve value from context provider "
                         +:+ "hosted-zone since account/region are not "
                         +:+ "specified at the stack level"))
      end
  end.

Definition new (hostedZones : string -> option string)
    (scope : Path) (id : string) (props : Props) : M t :=
  let this := child scope id in
  let subdomainName := subdomainName props ?? "spring" in
  let fullDomainName := subdomainName +:+ "." +:+ domainName props in
  hostedZone ← fromLookup hostedZones this "HostedZone" (domainName props);
  certificate ← create this "Certificate" (Certificate {|
    cert_domainName := fullDomainName;
    cert_subjectAlternativeNames :=
      subjectAlternativeNames props ?? ["*." +:+ domainName props];
    cert_validation := hostedZone |});
  addTag certificate "Component" "DNS";;
  ret {| this := this; hostedZone := hostedZone;
         certificate := certificate; fullDomainName := fullDomainName |}.

Definition createARecord (dns : t) (target : Path) : M Path :=
  create (this dns) "ARecord" (ARecord {|
    zone := hostedZone dns;
    recordName := firstLabel (fullDomainName dns);
    target := target |}).

End DnsConstruct.

(** ** lib/constructs/database-construct.ts *)

(** The double quote, which a string literal cannot hold. *)
Definition dq : string := String "034"%char EmptyString.

Module DatabaseConstruct.

Record Props : Type := {
  vpc : Path;
  databaseName : option string;
  username : option string;
  instanceType : option InstanceType;
  allocatedStorage : option Z;
  maxAllocatedStorage : option Z;
  deletionProtection : option bool
}.

Record t : Type := {
  instance : Path;
  secret : Path;
  securityGroup : SgHandle;
  endpoint : Str;
  port : Num
}.

Definition new (scope : Path) (id : string) (props : Props) : M t :=
  let this := child scope id in
  let databaseName := databaseName props ?? "springbootdb" in
  let username := username props ?? "springboot" in
  let instanceType := instanceType props ?? T3_MICRO in
  let allocatedStorage := allocatedStorage props ?? 20 in
  let maxAllocatedStorage := maxAllocatedStorage props ?? 100 in
  let deletionProtection := deletionProtection props ?? false in
  secret ← create this "Secret" (Secret {|
    secretStringTemplate := [("username", username)];
    generateStringKey := "password";
    excludeCharacters := dq +:+ "@/\'";
    passwordLength := 16;
    secret_description :=
      "Database credentials for Spring Boot application" |});
  securityGroup ← newSecurityGroup this "SecurityGroup" (vpc props)
    "Security group for RDS database" false;
  instance ← create this "Instance" (DatabaseInstance {|
    engine := "postgres";
    engineVersion := "15.4";
    dbi_instanceType := instanceType;
    dbi_vpc := vpc props;
    dbi_vpcSubnets := PRIVATE_ISOLATED;
    credentials := secret;
    dbi_databaseName := databaseName;
    dbi_allocatedStorage := allocatedStorage;
    dbi_maxAllocatedStorage := maxAllocatedStorage;
    deleteAutomatedBackups := true;
    backupRetention := days 7;
    dbi_deletionProtection := deletionProtection;
    removalPolicy := if deletionProtection then RETAIN else DESTROY;
    dbi_securityGroups := [securityGroup];
    monitoringInterval := minutes 1;
    enablePerformanceInsights := true;
    performanceInsightRetention := "DEFAULT" |});
  addTag instance "Component" "Database";;
  addTag secret "Component" "Database";;
  ret {| instance := instance; secret := secret;
         securityGroup := securityGroup;
         endpoint := Att instance "Endpoint.Address";
         port := NumAtt instance "Endpoint.Port" |}.

(** [source instanceof ec2.SecurityGroup ? source
      : source.connections.securityGroups[0]] *)
Definition sourceGroup (source : IConnectable) : option SgHandle :=
  match source with
  | IsSecurityGroup sg => Some sg
  | HasConnections securityGroups => securityGroups !! 0%nat
  end.

Definition allowConnectionsFrom (db : t) (source : IConnectable)
    (description : option string) : M unit :=
  match sourceGroup source with
  | Some sg =>
      addIngressRule (securityGroup db) (sgPeer sg) (tcp (port db))
        (description ?? "Allow database connection")
  | None => throw (TypeError "addIngressRule from undefined")
  end.

End DatabaseConstruct.

(** ** lib/constructs/jumphost-construct.ts *)

Module JumphostConstruct.

Record Props : Type := {
  vpc : Path;
  instanceType : option InstanceType;
  keyPairName : option string;
  allowSshFromAnywhere : option bool
}.

Record t : Type := {
  instance : Path;
  securityGroup : SgHandle;
  keyPair : Path
}.

(** The commands that [setupUserData] adds to the user data. *)
Definition setupUserData : list string := [
  "dnf update -y";
  "dnf install -y postgresql15 docker git htop curl wget jq";
  "systemctl start docker";
  "systemctl enable docker";
  "usermod -a -G docker ec2-user";
  "curl -L " +:+ dq +:+ "https://github.com/docker/compose/releases/download/v2.24.1/docker-compose-$(uname -s)-$(uname -m)" +:+ dq +:+ " -o /usr/local/bin/docker-compose";
  "chmod +x /usr/local/bin/docker-compose";
  "curl " +:+ dq +:+ "https://awscli.amazonaws.com/awscli-exe-linux-x86_64.zip" +:+ dq +:+ " -o " +:+ dq +:+ "awscliv2.zip" +:+ dq;
  "unzip awscliv2.zip";
  "./aws/install --update";
  "rm -rf awscliv2.zip aws/";
  "dnf install -y https://s3.amazonaws.com/session-manager-downloads/plugin/latest/linux_64bit/session-manager-plugin.rpm";
  "mkdir -p /home/ec2-user/scripts";
  "cat > /home/ec2-user/scripts/connect-db.sh << EOF";
  "#!/bin/bash";
  "echo " +:+ dq +:+ "Usage: ./connect-db.sh <database-endpoint> <username> <database-name>" +:+ dq;
  "echo " +:+ dq +:+ "Example: ./connect-db.sh mydb.xyz.rds.amazonaws.com springboot springbootdb" +:+ dq;
  "if [ $# -eq 3 ]; then";
  "  psql -h $1 -U $2 -d $3";
  "fi";
  "EOF";
  "chmod +x /home/ec2-user/scripts/connect-db.sh";
  "cat > /home/ec2-user/scripts/watch-logs.sh << EOF";
  "#!/bin/bash";
  "echo " +:+ dq +:+ "Watching ECS logs..." +:+ dq;
  "aws logs tail /ecs/spring-boot-app --follow";
  "EOF";
  "chmod +x /home/ec2-user/scripts/watch-logs.sh";
  "chown -R ec2-user:ec2-user /home/ec2-user/scripts";
  "echo " +:+ dq +:+ "Jumphost setup completed at $(date)" +:+ dq +:+ " > /var/log/jumphost-setup.log";
  "echo " +:+ dq +:+ "Available scripts in /home/ec2-user/scripts:" +:+ dq +:+ " >> /var/log/jumphost-setup.log";
  "ls -la /home/ec2-user/scripts/ >> /var/log/jumphost-setup.log" ].

Definition new (scope : Path) (id : string) (props : Props) : M t :=
  let this := child scope id in
  let instanceType := instanceType props ?? T3_MICRO in
  let keyPairName := keyPairName props ?? "springboot-jumphost-key" in
  let allowSshFromAnywhere := allowSshFromAnywhere props ?? true in
  keyPair ← create this "KeyPair" (KeyPair {|
    kp_keyPairName := keyPairName;
    kp_type := "RSA";
    kp_format := "PEM" |});
  securityGroup ← newSecurityGroup this "SecurityGroup" (vpc props)
    "Security group for EC2 jumphost" true;
  (if allowSshFromAnywhere
   then addIngressRule securityGroup anyIpv4 (tcp (NumLit 22))
          "Allow SSH access from anywhere"
   else ret tt);;
  jumphostRole ← create this "Role" (Role {|
    assumedBy := "ec2.amazonaws.com";
    role_description := "IAM role for jumphost instance";
    managedPolicies := [ "AmazonSSMManagedInstanceCore";
                         "CloudWatchAgentServerPolicy" ] |});
  let userData := setupUserData in
  instance ← create this "Instance" (Instance {|
    inst_vpc := vpc props;
    inst_vpcSubnets := PUBLIC;
    inst_instanceType := instanceType;
    machineImage := "latestAmazonLinux2023";
    inst_keyPair := keyPair;
    inst_securityGroup := securityGroup;
    userData := userData;
    inst_role := jumphostRole;
    userDataCausesReplacement := true |});
  addTag instance "Component" "Jumphost";;
  addTag keyPair "Component" "Jumphost";;
  ret {| instance := instance; securityGroup := securityGroup;
         keyPair := keyPair |}.

Definition publicIp (j : t) : Str := Att (instance j) "PublicIp".

Definition instanceId (j : t) : Str := Att (instance j) "InstanceId".

End JumphostConstruct.

(** ** lib/constructs/application-construct.ts *)

Module ApplicationConstruct.

Record Props : Type := {
  vpc : Path;
  certificate : Path;
  databaseEndpoint : Str;
  databasePort : Num;
  databaseSecret : Path;
  databaseName : string;
  githubRepo : option string;
  desiredCount : option Z;
  cpu : option Z;
  memoryLimitMiB : option Z;
  minCapacity : option Z;
  maxCapacity : option Z
}.

(** What the pattern [ApplicationLoadBalancedFargateService] exposes: the
    Fargate service with the security groups of its connections, the load
    balancer and the target group. *)
Record Service : Type := {
  pattern : Path;
  service : Path;
  connections : list SgHandle;
  loadBalancer : Path;
  targetGroup : Path
}.

Record t : Type := {
  cluster : Path;
  service_ : Service;
  repository : Path;
  logGroup_ : Path
}.

(** The security group that the library gives to the load balancer of the
    pattern: closed outbound but for the way to the containers, open to
    anyone on the port of each listener.  Its description ends with the
    unique id of the load balancer, of which the hash is left out. *)
Definition loadBalancerGroup (lb network : Path) (ports : list Z)
    (containerPort : Z) (service : SgHandle) : SecurityGroup :=
  {| sg_vpc := network;
     sg_description :=
       "Automatically created Security Group for ELB "
       +:+ String.concat EmptyString lb;
     allowAllOutbound := false;
     ingressRules :=
       map (fun n => {| rule_peer := anyIpv4;
                        rule_port := tcp (NumLit n);
                        rule_description :=
                          "Allow from anyone on port " +:+ pretty n |})
         ports;
     egressRules :=
       [{| rule_peer := sgPeer service;
           rule_port := tcp (NumLit containerPort);
           rule_description := "Load balancer to target" |}] |}.

(** The security group that the library gives to the Fargate service: open
    outbound, and open to the load balancer on the port of the containers. *)
Definition serviceGroup (service network : Path) (containerPort : Z)
    (lb : SgHandle) : SecurityGroup :=
  {| sg_vpc := network;
     sg_description := String.concat "/" (child service "SecurityGroup");
     allowAllOutbound := true;
     ingressRules :=
       [{| rule_peer := sgPeer lb;
           rule_port := tcp (NumLit containerPort);
           rule_description := "Load balancer to target" |}];
     egressRules := [] |}.

(** [new ecsPatterns.ApplicationLoadBalancedFargateService(scope, id, p)],
    for the public load balancer of its own that the construct asks for.
    Besides the declaration itself the library creates, under the pattern,
    the load balancer with a security group, two outputs of its own (the
    DNS name of the load balancer and the URL of the service), and the
    Fargate service with a security group, which is the one of the
    service's connections; it wires the two groups to each other.  The
    checks that the library makes on the counts it is given are left out:
    the constructor is modelled for the counts that the library accepts. *)
Definition newService (scope : Path) (id : string) (network : Path)
    (p : FargateServiceProps) : M Service :=
  pattern ← create scope id (ApplicationLoadBalancedFargateService p);
  let lb := child pattern "LB" in
  let service := child pattern "Service" in
  let port := containerPort (taskImageOptions p) in
  lbGroup ← newLibraryGroup lb "SecurityGroup"
    (fun h => loadBalancerGroup lb network
                (listenerPort p :: if redirectHTTP p then [80] else [])
                port (S h));
  create pattern "LoadBalancerDNS" (CfnOutput {|
    value := Att lb "DNSName";
    out_description := None |});;
  create pattern "ServiceURL" (CfnOutput {|
    value := Append (Lit "https://") (Att lb "DNSName");
    out_description := None |});;
  sg ← newLibraryGroup service "SecurityGroup"
    (fun _ => serviceGroup service network port lbGroup);
  ret {| pattern := pattern; service := service; connections := [sg];
         loadBalancer := lb;
         targetGroup := child (child lb "PublicListener") "ECSGroup" |}.

Definition setupAutoScaling (this : Service) (minCapacity maxCapacity : Z)
    : M unit :=
  scaling ← create (service this) "TaskCount"
    (ScalableTarget (service this) minCapacity maxCapacity);
  create scaling "CpuScaling" (CpuScaling {|
    targetUtilizationPercent := 70;
    scaleInCooldown := minutes 5;
    scaleOutCooldown := minutes 2 |});;
  create scaling "MemoryScaling" (MemoryScaling {|
    targetUtilizationPercent := 80;
    scaleInCooldown := minutes 5;
    scaleOutCooldown := minutes 2 |});;
  ret tt.

Definition new (scope : Path) (id : string) (props : Props) : M t :=
  let this := child scope id in
  let githubRepo := githubRepo props
    ?? "https://github.com/integrationninjas/springboot-example.git" in
  let desiredCount := desiredCount props ?? 2 in
  let cpu := cpu props ?? 512 in
  let memoryLimitMiB := memoryLimitMiB props ?? 1024 in
  let minCapacity := minCapacity props ?? 1 in
  let maxCapacity := maxCapacity props ?? 10 in
  repository ← create this "Repository" (Repository {|
    repositoryName := "spring-boot-app";
    imageScanOnPush := true;
    lifecycleRules := [("Keep last 10 images", 10)];
    repo_removalPolicy := DESTROY |});
  logGroup ← create this "LogGroup" (LogGroup {|
    logGroupName := "/ecs/spring-boot-app";
    retention := "ONE_WEEK";
    lg_removalPolicy := DESTROY |});
  cluster ← create this "Cluster" (Cluster {|
    cluster_vpc := vpc props;
    clusterName := "spring-boot-cluster";
    containerInsights := true |});
  let springBootImage := {|
    asset_directory := "docker-build";
    buildArgs := [("GITHUB_REPO", githubRepo)];
    platform := "LINUX_AMD64" |} in
  service ← newService this "Service" (vpc props) {|
    svc_cluster := cluster;
    serviceName := "spring-boot-service";
    svc_cpu := cpu;
    svc_memoryLimitMiB := memoryLimitMiB;
    svc_desiredCount := desiredCount;
    taskImageOptions := {|
      image := springBootImage;
      containerPort := 8080;
      environment := [
        ("SPRING_PROFILES_ACTIVE", Lit "prod");
        ("SERVER_PORT", Lit "8080");
        ("DATABASE_HOST", databaseEndpoint props);
        ("DATABASE_PORT", NumToString (databasePort props));
        ("DATABASE_NAME", Lit (databaseName props)) ];
      secrets := [
        ("DATABASE_USERNAME", (databaseSecret props, "username"));
        ("DATABASE_PASSWORD", (databaseSecret props, "password")) ];
      logStreamPrefix := "spring-boot";
      logGroup := logGroup |};
    publicLoadBalancer := true;
    listenerPort := 443;
    protocol := "HTTPS";
    svc_certificate := certificate props;
    redirectHTTP := true;
    platformVersion := "LATEST" |};
  emit (HealthCheckConfigured (targetGroup service) {|
    hc_path := "/";
    healthyHttpCodes := "200";
    hc_interval := seconds 30;
    hc_timeout := seconds 5;
    healthyThresholdCount := 2;
    unhealthyThresholdCount := 3 |});;
  setupAutoScaling service minCapacity maxCapacity;;
  addTag cluster "Component" "Application";;
  addTag repository "Component" "Application";;
  addTag logGroup "Component" "Application";;
  ret {| cluster := cluster; service_ := service;
         repository := repository; logGroup_ := logGroup |}.

Definition loadBalancerDnsName (a : t) : Str :=
  Att (loadBalancer (service_ a)) "DNSName".

(** [this.service.service.connections.securityGroups[0]], undefined when
    the service has no security group. *)
Definition securityGroup (a : t) : option SgHandle :=
  connections (service_ a) !! 0%nat.

End ApplicationConstruct.

(** ** lib/ecs-project-stack.ts *)

Module EcsProjectStack.

(** [EcsProjectStackProps extends cdk.StackProps]: of the props of a
    stack, the environment. *)
Record Props : Type := {
  env : option Environment;
  domainName : option string;
  subdomainName : option string
}.

Definition noProps : Props :=
  {| env := None; domainName := None; subdomainName := None |}.

Definition output (this : Path) (id : string) (v : Str)
    (description : string) : M unit :=
  create this id (CfnOutput {| value := v;
                               out_description := Some description |});;
  ret tt.

Definition createOutputs (this : Path) (dns : DnsConstruct.t)
    (database : DatabaseConstruct.t) (jumphost : JumphostConstruct.t)
    (application : ApplicationConstruct.t) : M unit :=
  output this "ApplicationURL"
    (Lit ("https://" +:+ DnsConstruct.fullDomainName dns))
    "HTTPS URL of the Spring Boot application";;
  output this "LoadBalancerDNS"
    (ApplicationConstruct.loadBalancerDnsName application)
    "DNS name of the load balancer";;
  output this "ClusterName"
    (Att (ApplicationConstruct.cluster application) "clusterName")
    "Name of the ECS cluster";;
  output this "ECRRepositoryURI"
    (Att (ApplicationConstruct.repository application) "repositoryUri")
    "ECR Repository URI";;
  output this "DatabaseEndpoint"
    (DatabaseConstruct.endpoint database)
    "RDS Database endpoint";;
  output this "DatabaseSecretArn"
    (Att (DatabaseConstruct.secret database) "secretArn")
    "Database credentials secret ARN";;
  output this "JumphostInstanceId"
    (JumphostConstruct.instanceId jumphost)
    "EC2 Jumphost instance ID";;
  output this "JumphostPublicIP"
    (JumphostConstruct.publicIp jumphost)
    "EC2 Jumphost public IP address";;
  output this "SSHKeyPairName"
    (Att (JumphostConstruct.keyPair jumphost) "keyPairName")
    "SSH Key Pair name for jumphost access".

Definition new (hostedZones : string -> option string)
    (scope : Path) (id : string) (props : Props) : M unit :=
  let this := child scope id in
  setEnvironment (env props);;
  let domainName := domainName props ?? "oazis.site" in
  let subdomainName := subdomainName props ?? "spring" in
  network ← NetworkConstruct.new this "Network" {|
    NetworkConstruct.maxAzs := Some 2;
    NetworkConstruct.natGateways := Some 1 |};
  dns ← DnsConstruct.new hostedZones this "Dns" {|
    DnsConstruct.domainName := domainName;
    DnsConstruct.subdomainName := Some subdomainName;
    DnsConstruct.subjectAlternativeNames := None |};
  database ← DatabaseConstruct.new this "Database" {|
    DatabaseConstruct.vpc := NetworkConstruct.vpc network;
    DatabaseConstruct.databaseName := Some "springbootdb";
    DatabaseConstruct.username := Some "springboot";
    DatabaseConstruct.instanceType := None;
    DatabaseConstruct.allocatedStorage := None;
    DatabaseConstruct.maxAllocatedStorage := None;
    DatabaseConstruct.deletionProtection := Some false |};
  jumphost ← JumphostConstruct.new this "Jumphost" {|
    JumphostConstruct.vpc := NetworkConstruct.vpc network;
    JumphostConstruct.instanceType := None;
    JumphostConstruct.keyPairName := Some "springboot-jumphost-key";
    JumphostConstruct.allowSshFromAnywhere := None |};
  DatabaseConstruct.allowConnectionsFrom database
    (IsSecurityGroup (JumphostConstruct.securityGroup jumphost))
    (Some "Allow jumphost to connect to database");;
  application ← ApplicationConstruct.new this "Application" {|
    ApplicationConstruct.vpc := NetworkConstruct.vpc network;
    ApplicationConstruct.certificate := DnsConstruct.certificate dns;
    ApplicationConstruct.databaseEndpoint :=
      DatabaseConstruct.endpoint database;
    ApplicationConstruct.databasePort := DatabaseConstruct.port database;
    ApplicationConstruct.databaseSecret :=
      DatabaseConstruct.secret database;
    ApplicationConstruct.databaseName := "springbootdb";
    ApplicationConstruct.githubRepo := None;
    ApplicationConstruct.desiredCount := Some 2;
    ApplicationConstruct.cpu := None;
    ApplicationConstruct.memoryLimitMiB := None;
    ApplicationConstruct.minCapacity := Some 1;
    ApplicationConstruct.maxCapacity := Some 10 |};
  match ApplicationConstruct.securityGroup application with
  | Some sg =>
      DatabaseConstruct.allowConnectionsFrom database (IsSecurityGroup sg)
        (Some "Allow ECS service to connect to database")
  | None => throw (TypeError "connections of undefined")
  end;;
  DnsConstruct.createARecord dns
    (ApplicationConstruct.loadBalancer
       (ApplicationConstruct.service_ application));;
  createOutputs this dns database jumphost application.

End EcsProjectStack.


(** ** bin/ecs-project.ts *)

(** [new EcsProjectStack(app, id, props)] in a fresh app: the app is the
    root of the construct tree, and nothing is declared yet. *)
Definition synth (hostedZones : string -> option string) (id : string)
    (props : EcsProjectStack.Props) : Result unit :=
  EcsProjectStack.new hostedZones [] id props emptyStack.

(** The app of the repository: one stack, for the account and the region
    that the process finds in [CDK_DEFAULT_ACCOUNT] and
    [CDK_DEFAULT_REGION]. *)
Definition main (hostedZones : string -> option string)
    (CDK_DEFAULT_ACCOUNT CDK_DEFAULT_REGION : option string) : Result unit :=
  synth hostedZones "EcsProjectStack" {|
    EcsProjectStack.env := Some {| account := CDK_DEFAULT_ACCOUNT;
                                   region := CDK_DEFAULT_REGION |};
    EcsProjectStack.domainName := None;
    EcsProjectStack.subdomainName := None |}.

(** ** Observing a stack *)

(** The declarations of one kind in a trace, in order, each with the path of
    its construct. *)
Definition declarations {A} (sel : Resource -> option A) (tr : list Event)
    : list (Path * A) :=
  omap (fun e => match e with
                 | Created scope id r =>
                     match sel r with
                     | Some a => Some (child scope id, a)
                     | None => None
                     end
                 | _ => None
                 end) tr.

Definition asVpc (r : Resource) : option VpcProps :=
  match r with Vpc p => Some p | _ => None end.

Definition asCertificate (r : Resource) : option CertificateProps :=
  match r with Certificate p => Some p | _ => None end.

Definition asSecret (r : Resource) : option SecretProps :=
  match r with Secret p => Some p | _ => None end.

Definition asDatabaseInstance (r : Resource) : option DatabaseInstanceProps :=
  match r with DatabaseInstance p => Some p | _ => None end.

Definition asService (r : Resource) : option FargateServiceProps :=
  match r with
  | ApplicationLoadBalancedFargateService p => Some p
  | _ => None
  end.

Definition asScalableTarget (r : Resource) : option (Z * Z) :=
  match r with ScalableTarget _ lo hi => Some (lo, hi) | _ => None end.

Definition asSecurityGroup (r : Resource) : option SgHandle :=
  match r with SecurityGroupR sg => Some sg | _ => None end.

(** The outputs of a trace: the id of each [CfnOutput] with its value. *)
Definition outputSet (tr : list Event) : list (string * Str) :=
  omap (fun e => match e with
                 | Created _ id (CfnOutput o) => Some (id, value o)
                 | _ => None
                 end) tr.

Fixpoint lookupOutput (key : string) (outs : list (string * Str))
    : option Str :=
  match outs with
  | [] => None
  | (k, v) :: rest => if String.eqb k key then Some v else lookupOutput key rest
  end.




(** The ingress rules of a group on a TCP port known at synthesis. *)
Definition onPort (n : Z) (r : Rule) : bool :=
  match rule_port r with
  | tcp (NumLit m) => Z.eqb m n
  | tcp (NumAtt _ _) => false
  end.

(** [m] leaves every security group that exists before it as it is. *)
Definition preservesGroups {A} (m : M A) : Prop :=
  forall s, match m s with
            | Ok _ s' => securityGroups s `prefix_of` securityGroups s'
            | Err _ => True
            end.

(** What a run adds to the trace of the stack it starts from. *)
Definition adds (s s' : Stack) (evs : list Event) : Prop :=
  trace s' = trace s ++ evs.

(** The rule that [allowConnectionsFrom] adds for the group [src]. *)
Definition connectionRule (db : DatabaseConstruct.t) (src : SgHandle)
    (description : option string) : Rule :=
  {| rule_peer := sgPeer src;
     rule_port := tcp (DatabaseConstruct.port db);
     rule_description := description ?? "Allow database connection" |}.

(** The one rule that the jumphost's constructor can add. *)
Definition sshFromAnywhere : Rule :=
  {| rule_peer := anyIpv4;
     rule_port := tcp (NumLit 22);
     rule_description := "Allow SSH access from anywhere" |}.

(** ** Example configurations *)

Definition exampleZones (d : string) : option string :=
  if String.eqb d "example.com" then Some "Z0EXAMPLE" else None.

Definition scenarioA : EcsProjectStack.Props := {|
  EcsProjectStack.env := Some {| account := Some "123456789012";
                                 region := Some "us-east-1" |};
  EcsProjectStack.domainName := Some "example.com";
  EcsProjectStack.subdomainName := Some "api" |}.

(** [{minCapacity: 1, maxCapacity: 1, desiredCount: 2}] for an application
    in the network [net], behind the certificate [cert]. *)
Definition scenarioB (net cert : Path) : ApplicationConstruct.Props := {|
  ApplicationConstruct.vpc := net;
  ApplicationConstruct.certificate := cert;
  ApplicationConstruct.databaseEndpoint := Lit "db.internal";
  ApplicationConstruct.databasePort := NumLit 5432;
  ApplicationConstruct.databaseSecret := ["Secret"];
  ApplicationConstruct.databaseName := "springbootdb";
  ApplicationConstruct.githubRepo := None;
  ApplicationConstruct.desiredCount := Some 2;
  ApplicationConstruct.cpu := None;
  ApplicationConstruct.memoryLimitMiB := None;
  ApplicationConstruct.minCapacity := Some 1;
  ApplicationConstruct.maxCapacity := Some 1 |}.

Definition noZones : NetworkConstruct.Props := {|
  NetworkConstruct.maxAzs := Some 0;
  NetworkConstruct.natGateways := Some 1 |}.

Definition moreGatewaysThanZones : NetworkConstruct.Props := {|
  NetworkConstruct.maxAzs := Some 1;
  NetworkConstruct.natGateways := Some 2 |}.


Definition database (net : Path) (protection : option bool)
    : DatabaseConstruct.Props := {|
  DatabaseConstruct.vpc := net;
  DatabaseConstruct.databaseName := None;
  DatabaseConstruct.username := None;
  DatabaseConstruct.instanceType := None;
  DatabaseConstruct.allocatedStorage := None;
  DatabaseConstruct.maxAllocatedStorage := None;
  DatabaseConstruct.deletionProtection := protection |}.

Definition jumphost (net : Path) (ssh : option bool)
    : JumphostConstruct.Props := {|
  JumphostConstruct.vpc := net;
  JumphostConstruct.instanceType := None;
  JumphostConstruct.keyPairName := None;
  JumphostConstruct.allowSshFromAnywhere := ssh |}.

(** ** Further observations *)

Definition asInstance (r : Resource) : option InstanceProps :=
  match r with Instance p => Some p | _ => None end.

Definition asKeyPair (r : Resource) : option KeyPairProps :=
  match r with KeyPair p => Some p | _ => None end.

Definition asRepository (r : Resource) : option RepositoryProps :=
  match r with Repository p => Some p | _ => None end.

Definition asCluster (r : Resource) : option ClusterProps :=
  match r with Cluster p => Some p | _ => None end.

Definition asLogGroup (r : Resource) : option LogGroupProps :=
  match r with LogGroup p => Some p | _ => None end.



Definition asOutput (r : Resource) : option Str :=
  match r with CfnOutput o => Some (value o) | _ => None end.

(** The calls of [addIngressRule] that have added a rule, in order: the
    group that is opened, and to whom. *)
Definition ingressAdded (tr : list Event) : list (SgHandle * Peer) :=
  omap (fun e => match e with
                 | IngressAdded sg r => Some (sg, rule_peer r)
                 | _ => None
                 end) tr.


(** The constructs that a value refers to. *)
Definition numRefs (n : Num) : list Path :=
  match n with
  | NumLit _ => []
  | NumAtt p _ => [p]
  end.

Fixpoint strRefs (v : Str) : list Path :=
  match v with
  | Lit _ => []
  | Att p _ => [p]
  | NumToString n => numRefs n
  | Append a b => strRefs a ++ strRefs b
  end.

(** The constructs that an event of the trace refers to: the resources that
    a declaration is given in its props, the target of a tag or of a health
    check. *)
Definition needs (e : Event) : list Path :=
  match e with
  | Created _ _ r =>
      match r with
      | Certificate p => [cert_validation p]
      | DatabaseInstance p => [dbi_vpc p; credentials p]
      | Instance p => [inst_vpc p; inst_keyPair p; inst_role p]
      | Cluster p => [cluster_vpc p]
      | ApplicationLoadBalancedFargateService p =>
          [svc_cluster p; svc_certificate p; logGroup (taskImageOptions p)]
          ++ flat_map (fun kv => strRefs (snd kv))
               (environment (taskImageOptions p))
          ++ map (fun kv => fst (snd kv)) (secrets (taskImageOptions p))
      | ScalableTarget service _ _ => [service]
      | ARecord p => [zone p; target p]
      | CfnOutput p => strRefs (value p)
      | _ => []
      end
  | HealthCheckConfigured targetGroup _ => [targetGroup]
  | Tagged x _ _ => [x]
  | IngressAdded _ _ => []
  end.

(** The constructs that exist once an event has happened: the one declared
    and, for the load-balanced service, the service, the load balancer and
    the target group that the pattern exposes. *)
Definition provides (e : Event) : list Path :=
  match e with
  | Created scope id r =>
      child scope id ::
      match r with
      | ApplicationLoadBalancedFargateService _ =>
          [ child (child scope id) "Service";
            child (child scope id) "LB";
            child (child (child (child scope id) "LB") "PublicListener")
              "ECSGroup" ]
      | _ => []
      end
  | _ => []
  end.

(** Every event refers only to constructs that exist when it happens,
    [seen] being those that exist at the start. *)
Fixpoint ordered (seen : list Path) (tr : list Event) : Prop :=
  match tr with
  | [] => True
  | e :: rest =>
      Forall (fun p => p ∈ seen) (needs e) /\
      ordered (provides e ++ seen) rest
  end.

(** * Properties *)

(** ** Running a constructor *)

Lemma lookup_fresh {A} (l : list A) (x : A) :
  (l ++ [x]) !! length l = Some x.
Proof. apply list_lookup_middle. reflexivity. Qed.

Lemma insert_fresh {A} (l : list A) (x y : A) :
  <[length l := y]> (l ++ [x]) = l ++ [y].
Proof.
  replace (length l) with (length l + 0)%nat by lia.
  rewrite insert_app_r. reflexivity.
Qed.

(** Unfolds a run down to its final stack. *)
Ltac run :=
  unfold mbind, M_bind, mret, M_ret, bind, ret, throw, create, addTag, emit,
    newSecurityGroup;
  cbn.

(** Collects the events that a computed trace appends to [trace s]. *)
Ltac collect :=
  unfold adds; cbn [trace];
  repeat rewrite <- app_assoc; cbn [app]; reflexivity.

(** Computes the run that [H] holds, paths and handles left as they are. *)
Ltac computed H :=
  cbv -[app length child] in H;
  rewrite ?length_app in H; cbn [length] in H; rewrite ?Nat.add_1_r in H.

(** ** Network *)

(** C2, as the code has it: [NetworkConstruct] checks nothing.  For every
    props it returns, and it hands the resolved zone and gateway counts
    (defaults 2 and 1) to the one VPC that it declares, whatever they are. *)
Theorem C2_network_counts_passed_through (scope : Path) (id : string)
    (props : NetworkConstruct.Props) (s : Stack) :
  exists n s' evs v,
    NetworkConstruct.new scope id props s = Ok n s' /\
    adds s s' evs /\
    declarations asVpc evs = [(NetworkConstruct.vpc n, v)] /\
    vpc_maxAzs v = NetworkConstruct.maxAzs props ?? 2 /\
    vpc_natGateways v = NetworkConstruct.natGateways props ?? 1.
Proof.
  unfold NetworkConstruct.new. run.
  eexists _, _, _, _. split; [reflexivity|]. split; [collect|].
  cbn. repeat split.
Qed.

(** C2 fails on the code: a network with no availability zone, and one with
    more NAT gateways than zones, are both declared to the provider. *)
Lemma C2_counterexample :
  (NetworkConstruct.maxAzs noZones ?? 2 < 1 /\
   exists n s',
     NetworkConstruct.new [] "Network" noZones emptyStack = Ok n s' /\
     exists v, declarations asVpc (trace s') = [(["Network"; "Vpc"], v)] /\
               vpc_maxAzs v = 0 /\ vpc_natGateways v = 1) /\
  (NetworkConstruct.natGateways moreGatewaysThanZones ?? 1 >
     NetworkConstruct.maxAzs moreGatewaysThanZones ?? 2 /\
   exists n s',
     NetworkConstruct.new [] "Network" moreGatewaysThanZones emptyStack
       = Ok n s' /\
     exists v, declarations asVpc (trace s') = [(["Network"; "Vpc"], v)] /\
               vpc_maxAzs v = 1 /\ vpc_natGateways v = 2).
Proof.
  split; (split; [cbn; lia|]); eexists _, _; (split; [reflexivity|]);
    eexists; cbn; repeat split.
Qed.

(** ** DNS *)




(** ** Database *)

(** C4, as the code has it: the database instance is named as given, or
    "springbootdb" when no name is given, and the secret is generated for
    the user name given, or for "springboot" when none is given. *)
Theorem C4_database_defaults (scope : Path) (id : string)
    (props : DatabaseConstruct.Props) (s : Stack) :
  exists db s' evs i c,
    DatabaseConstruct.new scope id props s = Ok db s' /\
    adds s s' evs /\
    declarations asDatabaseInstance evs
      = [(DatabaseConstruct.instance db, i)] /\
    declarations asSecret evs = [(DatabaseConstruct.secret db, c)] /\
    credentials i = DatabaseConstruct.secret db /\
    match DatabaseConstruct.databaseName props with
    | None => dbi_databaseName i = "springbootdb"
    | Some name => dbi_databaseName i = name
    end /\
    match DatabaseConstruct.username props with
    | None => secretStringTemplate c = [("username", "springboot")]
    | Some user => secretStringTemplate c = [("username", user)]
    end.
Proof.
  unfold DatabaseConstruct.new. run.
  eexists _, _, _, _, _. split; [reflexivity|]. split; [collect|].
  cbn. do 3 (split; [reflexivity|]).
  split; [destruct (DatabaseConstruct.databaseName props)|
          destruct (DatabaseConstruct.username props)]; reflexivity.
Qed.

(** C4 fails on the code: with neither a name nor a user name given, the
    database is "springbootdb" and its user "springboot", not "appdb" and
    "appuser". *)
Lemma C4_counterexample :
  exists db s' i c,
    DatabaseConstruct.new [] "Database" (database ["Vpc"] None) emptyStack
      = Ok db s' /\
    declarations asDatabaseInstance (trace s')
      = [(DatabaseConstruct.instance db, i)] /\
    declarations asSecret (trace s') = [(DatabaseConstruct.secret db, c)] /\
    dbi_databaseName i = "springbootdb" /\
    dbi_databaseName i <> "appdb" /\
    secretStringTemplate c = [("username", "springboot")] /\
    secretStringTemplate c <> [("username", "appuser")].
Proof.
  eexists _, _, _, _. split; [reflexivity|]. cbn.
  repeat split; discriminate.
Qed.

(** C6, as the code has it: what the instance is declared to retain depends
    on the deletion protection given in this run alone.  The instance is
    declared once, at the same path whatever the flag; it is protected and
    retained when the flag is true, unprotected and destroyed with the stack
    when the flag is false or absent. *)
Theorem C6_retention_follows_flag (scope : Path) (id : string)
    (props : DatabaseConstruct.Props) (s : Stack) :
  exists db s' evs i,
    DatabaseConstruct.new scope id props s = Ok db s' /\
    adds s s' evs /\
    DatabaseConstruct.instance db = child (child scope id) "Instance" /\
    declarations asDatabaseInstance evs
      = [(DatabaseConstruct.instance db, i)] /\
    match DatabaseConstruct.deletionProtection props with
    | Some true => dbi_deletionProtection i = true /\ removalPolicy i = RETAIN
    | _ => dbi_deletionProtection i = false /\ removalPolicy i = DESTROY
    end.
Proof.
  unfold DatabaseConstruct.new. run.
  eexists _, _, _, _. split; [reflexivity|]. split; [collect|].
  cbn. do 2 (split; [reflexivity|]).
  destruct (DatabaseConstruct.deletionProtection props) as [[]|];
    split; reflexivity.
Qed.

(** C6 fails on the code: the same database declared a second time with the
    protection turned off is declared with the policy DESTROY, where the
    first run declared RETAIN. *)
Lemma C6_counterexample :
  exists db1 s1 i1 db2 s2 i2,
    DatabaseConstruct.new [] "Database" (database ["Vpc"] (Some true))
      emptyStack = Ok db1 s1 /\
    DatabaseConstruct.new [] "Database" (database ["Vpc"] (Some false))
      emptyStack = Ok db2 s2 /\
    declarations asDatabaseInstance (trace s1)
      = [(["Database"; "Instance"], i1)] /\
    declarations asDatabaseInstance (trace s2)
      = [(["Database"; "Instance"], i2)] /\
    removalPolicy i1 = RETAIN /\
    removalPolicy i2 = DESTROY /\
    removalPolicy i2 <> removalPolicy i1.
Proof.
  eexists _, _, _, _, _, _. do 2 (split; [reflexivity|]). cbn.
  repeat split; discriminate.
Qed.

Lemma DatabaseConstruct_new_group (scope : Path) (id : string)
    (props : DatabaseConstruct.Props) (s : Stack) :
  exists db s' g,
    DatabaseConstruct.new scope id props s = Ok db s' /\
    DatabaseConstruct.securityGroup db = length (securityGroups s) /\
    securityGroups s' = securityGroups s ++ [g] /\
    allowAllOutbound g = false /\
    ingressRules g = [] /\
    egressRules g = [].
Proof.
  unfold DatabaseConstruct.new. run.
  eexists _, _, _. split; [reflexivity|]. cbn. repeat split.
Qed.

Lemma samePort_refl (p : Port) : samePort p p = true.
Proof. destruct p as [[n|r x]]; cbn; [apply Z.eqb_refl | reflexivity]. Qed.

Lemma allowConnectionsFrom_run (db : DatabaseConstruct.t)
    (source : IConnectable) (description : option string) (s : Stack)
    (g : SecurityGroup) (src : SgHandle) :
  securityGroups s !! DatabaseConstruct.securityGroup db = Some g ->
  DatabaseConstruct.sourceGroup source = Some src ->
  hasRule (sgPeer src) (tcp (DatabaseConstruct.port db)) (ingressRules g)
    = false ->
  DatabaseConstruct.allowConnectionsFrom db source description s
  = Ok tt {| trace := trace s ++
               [IngressAdded (DatabaseConstruct.securityGroup db)
                  (connectionRule db src description)];
             securityGroups :=
               <[DatabaseConstruct.securityGroup db :=
                   withIngress (connectionRule db src description) g]>
                 (securityGroups s);
             stackEnv := stackEnv s |}.
Proof.
  intros Hg Hsrc Hnew. unfold DatabaseConstruct.allowConnectionsFrom.
  rewrite Hsrc. unfold addIngressRule. rewrite Hg, Hnew. reflexivity.
Qed.


Lemma preservesGroups_emit (e : Event) : preservesGroups (emit e).
Proof. intros s. cbn. reflexivity. Qed.

Lemma preservesGroups_ret {A} (a : A) : preservesGroups (ret a).
Proof. intros s. cbn. reflexivity. Qed.

Lemma preservesGroups_throw {A} (e : Error) : preservesGroups (@throw A e).
Proof. intros s. exact I. Qed.

Lemma preservesGroups_bind {A B} (m : M A) (k : A -> M B) :
  preservesGroups m -> (forall a, preservesGroups (k a)) ->
  preservesGroups (m ≫= k).
Proof.
  intros Hm Hk s. unfold mbind, M_bind, bind.
  specialize (Hm s). destruct (m s) as [a s1|e]; [|exact I].
  specialize (Hk a s1). destruct (k a s1) as [b s2|e]; [|exact I].
  etrans; eassumption.
Qed.

Lemma preservesGroups_create (scope : Path) (id : string) (r : Resource) :
  preservesGroups (create scope id r).
Proof.
  apply preservesGroups_bind; [apply preservesGroups_emit|].
  intros _. apply preservesGroups_ret.
Qed.

Lemma preservesGroups_addTag (x : Path) (k v : string) :
  preservesGroups (addTag x k v).
Proof. apply preservesGroups_emit. Qed.

Lemma preservesGroups_newSecurityGroup (scope : Path) (id : string)
    (vpc : Path) (d : string) (o : bool) :
  preservesGroups (newSecurityGroup scope id vpc d o).
Proof. intros s. cbn. apply prefix_app_r. reflexivity. Qed.

Lemma preservesGroups_newLibraryGroup (scope : Path) (id : string)
    (g : SgHandle -> SecurityGroup) :
  preservesGroups (newLibraryGroup scope id g).
Proof. intros s. cbn. apply prefix_app_r. reflexivity. Qed.

Lemma preservesGroups_setEnvironment (e : option Environment) :
  preservesGroups (setEnvironment e).
Proof. intros s. cbn. reflexivity. Qed.

(** A rule added to a group that the run itself has just created changes no
    group that existed before the run. *)
Lemma preservesGroups_new_then_rule {B} (scope : Path) (id : string)
    (vpc : Path) (d : string) (o : bool) (peer : Peer) (port : Port)
    (dr : string) (k : SgHandle -> M B) :
  (forall h, preservesGroups (k h)) ->
  preservesGroups (h ← newSecurityGroup scope id vpc d o;
                   addIngressRule h peer port dr;; k h).
Proof.
  intros Hk s. unfold mbind, M_bind, bind, newSecurityGroup, addIngressRule.
  cbn [securityGroups trace]. rewrite lookup_fresh.
  cbn [ingressRules hasRule existsb]. rewrite insert_fresh.
  match goal with |- context [k ?h ?s1] =>
    specialize (Hk h s1); destruct (k h s1) as [b s2|e]; [|exact I] end.
  cbn in Hk. etrans; [|exact Hk]. apply prefix_app_r. reflexivity.
Qed.

(** Walks down a program made of the operations above. *)
Ltac frame :=
  repeat lazymatch goal with
  | |- preservesGroups (mbind _ _) =>
      apply preservesGroups_bind; [|intros ?]
  | |- preservesGroups (emit _) => apply preservesGroups_emit
  | |- preservesGroups (ret _) => apply preservesGroups_ret
  | |- preservesGroups (throw _) => apply preservesGroups_throw
  | |- preservesGroups (create _ _ _) => apply preservesGroups_create
  | |- preservesGroups (addTag _ _ _) => apply preservesGroups_addTag
  | |- preservesGroups (newSecurityGroup _ _ _ _ _) =>
      apply preservesGroups_newSecurityGroup
  | |- preservesGroups (newLibraryGroup _ _ _) =>
      apply preservesGroups_newLibraryGroup
  | |- preservesGroups (setEnvironment _) =>
      apply preservesGroups_setEnvironment
  end.





Lemma preservesGroups_Jumphost scope id props :
  preservesGroups (JumphostConstruct.new scope id props).
Proof.
  unfold JumphostConstruct.new.
  cbv zeta. apply preservesGroups_bind; [frame|]. intros keyPair.
  destruct (JumphostConstruct.allowSshFromAnywhere props ?? true).
  - apply preservesGroups_new_then_rule. intros h. frame.
  - frame.
Qed.



(** *** The stack leaves the groups of others alone *)












(** ** Jumphost *)

Lemma JumphostConstruct_new_group (scope : Path) (id : string)
    (props : JumphostConstruct.Props) (s : Stack) :
  exists j s' g,
    JumphostConstruct.new scope id props s = Ok j s' /\
    JumphostConstruct.securityGroup j = length (securityGroups s) /\
    securityGroups s' = securityGroups s ++ [g] /\
    allowAllOutbound g = true /\
    egressRules g = [] /\
    ingressRules g
      = if JumphostConstruct.allowSshFromAnywhere props ?? true
        then [sshFromAnywhere] else [].
Proof.
  unfold JumphostConstruct.new.
  destruct (JumphostConstruct.allowSshFromAnywhere props ?? true).
  - unfold mbind, M_bind, bind, create, emit, newSecurityGroup,
      addIngressRule, addTag, mret, M_ret, ret.
    simpl. rewrite lookup_fresh. simpl. rewrite insert_fresh.
    eexists _, _, _. split; [reflexivity|]. cbn. repeat split.
  - run. eexists _, _, _. split; [reflexivity|]. cbn. repeat split.
Qed.

(** C8: the jumphost's security group is created with no ingress rule on
    port 22 (indeed with no ingress rule at all) when [allowSshFromAnywhere]
    is false, and with exactly one, for TCP port 22 from any IPv4 address,
    when the flag is true or absent. *)
Theorem C8_jumphost_ssh_ingress (scope : Path) (id : string)
    (props : JumphostConstruct.Props) (s : Stack) :
  exists j s' g,
    JumphostConstruct.new scope id props s = Ok j s' /\
    securityGroups s' !! JumphostConstruct.securityGroup j = Some g /\
    match JumphostConstruct.allowSshFromAnywhere props with
    | Some false => ingressRules g = [] /\
                    filter (onPort 22) (ingressRules g) = []
    | _ => ingressRules g = [sshFromAnywhere] /\
           filter (onPort 22) (ingressRules g) = [sshFromAnywhere]
    end.
Proof.
  destruct (JumphostConstruct_new_group scope id props s)
    as (j & s' & g & Hrun & Hh & Hsgs & _ & _ & Hin).
  exists j, s', g. split; [exact Hrun|].
  split; [rewrite Hsgs, Hh; apply lookup_fresh|].
  rewrite Hin.
  destruct (JumphostConstruct.allowSshFromAnywhere props) as [[]|];
    split; reflexivity.
Qed.

(** C10: whatever its props, the jumphost's security group is created with
    all outbound traffic allowed. *)
Theorem C10_jumphost_outbound_open (scope : Path) (id : string)
    (props : JumphostConstruct.Props) (s : Stack) :
  exists j s' g,
    JumphostConstruct.new scope id props s = Ok j s' /\
    securityGroups s' !! JumphostConstruct.securityGroup j = Some g /\
    allowAllOutbound g = true.
Proof.
  destruct (JumphostConstruct_new_group scope id props s)
    as (j & s' & g & Hrun & Hh & Hsgs & Hout & _).
  exists j, s', g. split; [exact Hrun|].
  split; [rewrite Hsgs, Hh; apply lookup_fresh | exact Hout].
Qed.

(** ** Application *)

(** The construct returns for every props. *)
Lemma ApplicationConstruct_new_runs (scope : Path) (id : string)
    (props : ApplicationConstruct.Props) (s : Stack) :
  exists a s', ApplicationConstruct.new scope id props s = Ok a s'.
Proof.
  destruct (ApplicationConstruct.new scope id props s) as [a s'|e] eqn:Hrun.
  - exists a, s'. reflexivity.
  - vm_compute in Hrun. discriminate Hrun.
Qed.

(** C1, as the code has it: the desired count is compared with no bound.
    For every props with at least one desired task (2 when absent) and with
    a minimum (1 when absent) that is not negative and not above the maximum
    (10 when absent), as the library asks of the counts it is given,
    [ApplicationConstruct] returns, having declared one service with that
    desired count and one scalable target with that minimum and that
    maximum, whether the desired count lies between the two or not. *)
Theorem C1_application_counts_passed_through (scope : Path) (id : string)
    (props : ApplicationConstruct.Props) (s : Stack)
    (Hdesired : 1 <= ApplicationConstruct.desiredCount props ?? 2)
    (Hmin : 0 <= ApplicationConstruct.minCapacity props ?? 1)
    (Hmax : ApplicationConstruct.minCapacity props ?? 1
            <= ApplicationConstruct.maxCapacity props ?? 10) :
  exists a s' evs svc target,
    ApplicationConstruct.new scope id props s = Ok a s' /\
    adds s s' evs /\
    declarations asService evs
      = [(ApplicationConstruct.pattern (ApplicationConstruct.service_ a),
          svc)] /\
    svc_desiredCount svc = ApplicationConstruct.desiredCount props ?? 2 /\
    declarations asScalableTarget evs
      = [(target, (ApplicationConstruct.minCapacity props ?? 1,
                   ApplicationConstruct.maxCapacity props ?? 10))].
Proof.
  destruct (ApplicationConstruct_new_runs scope id props s)
    as (a & s' & Hrun).
  exists a, s'. pose proof Hrun as H.
  computed H. injection H as <- <-.
  eexists _, _, _. split; [exact Hrun|]. split; [collect|].
  cbn. repeat split.
Qed.

(** C1 at the props [{minCapacity: 1, maxCapacity: 1, desiredCount: 2}]:
    two desired tasks, and at most one when scaling. *)
Lemma C1_application_counts_passed_through_witness :
  exists a s' evs svc target,
    ApplicationConstruct.new [] "Application"
      (scenarioB ["Vpc"] ["Certificate"]) emptyStack = Ok a s' /\
    adds emptyStack s' evs /\
    declarations asService evs = [(["Application"; "Service"], svc)] /\
    svc_desiredCount svc = 2 /\
    declarations asScalableTarget evs = [(target, (1, 1))].
Proof.
  destruct (C1_application_counts_passed_through [] "Application"
              (scenarioB ["Vpc"] ["Certificate"]) emptyStack)
    as (a & s' & evs & svc & target & Hrun & Hadds & Hsvc & Hcount & Htarget);
    [cbn; lia | cbn; lia | cbn; lia |].
  exists a, s', evs, svc, target.
  split; [exact Hrun|]. split; [exact Hadds|].
  split; [|split; [exact Hcount | exact Htarget]].
  rewrite Hsvc. vm_compute in Hrun. injection Hrun as <- _. reflexivity.
Defined.

(** C1 fails on the code: the props [{minCapacity: 1, maxCapacity: 1,
    desiredCount: 2}] are not rejected; the service is declared with two
    desired tasks and the scalable target with at most one. *)
Lemma C1_counterexample :
  ApplicationConstruct.desiredCount (scenarioB ["Vpc"] ["Certificate"]) ?? 2
    > ApplicationConstruct.maxCapacity (scenarioB ["Vpc"] ["Certificate"])
        ?? 10 /\
  exists a s' svc target,
    ApplicationConstruct.new [] "Application"
      (scenarioB ["Vpc"] ["Certificate"]) emptyStack = Ok a s' /\
    declarations asService (trace s') = [(["Application"; "Service"], svc)] /\
    svc_desiredCount svc = 2 /\
    declarations asScalableTarget (trace s') = [(target, (1, 1))].
Proof.
  split; [cbn; lia|]. eexists _, _, _, _.
  split; [vm_compute; reflexivity|]. cbn. repeat split.
Qed.

(** ** The stack *)

(** With the zone of its domain found, the stack is synthesised to the end. *)
Lemma synth_runs (hostedZones : string -> option string) (id : string)
    (props : EcsProjectStack.Props) (z : string) :
  hostedZones (EcsProjectStack.domainName props ?? "oazis.site") = Some z ->
  exists s', synth hostedZones id props = Ok tt s' /\
             synth (fun _ => Some z) id props = Ok tt s'.
Proof.
  intros Hzone.
  unfold synth, EcsProjectStack.new, DnsConstruct.new, DnsConstruct.fromLookup.
  cbn [DnsConstruct.domainName]. rewrite Hzone.
  eexists. split; vm_compute; reflexivity.
Qed.

(** A stack that is synthesised to the end is the stack of a zone: the one
    that the lookup has found, or the one that the library makes up. *)
Lemma synth_inv (hostedZones : string -> option string) (id : string)
    (props : EcsProjectStack.Props) (s' : Stack) :
  synth hostedZones id props = Ok tt s' ->
  exists z, synth (fun _ => Some z) id props = Ok tt s'.
Proof.
  intros Hrun.
  destruct (hostedZones (EcsProjectStack.domainName props ?? "oazis.site"))
    as [z|] eqn:Hzone.
  - destruct (synth_runs hostedZones id props z Hzone) as (s1 & H1 & H2).
    rewrite Hrun in H1. injection H1 as <-. exists z. exact H2.
  - exists "DUMMY". revert Hrun.
    unfold synth, EcsProjectStack.new, DnsConstruct.new,
      DnsConstruct.fromLookup.
    cbn [DnsConstruct.domainName]. rewrite Hzone. clear Hzone.
    destruct props as [e d sub]. destruct d as [[|c d]|];
      destruct e as [[[a|] [r|]]|];
      vm_compute; intros H; try discriminate H; exact H.
Qed.

(** The application URL is "https://", the subdomain, a dot, the domain. *)
Lemma synth_application_url (hostedZones : string -> option string)
    (id : string) (props : EcsProjectStack.Props) (s' : Stack) :
  synth hostedZones id props = Ok tt s' ->
  lookupOutput "ApplicationURL" (outputSet (trace s'))
  = Some (Lit ("https://" +:+ EcsProjectStack.subdomainName props ?? "spring"
               +:+ "." +:+ EcsProjectStack.domainName props ?? "oazis.site")).
Proof.
  intros Hrun. apply synth_inv in Hrun as (z & Hrun).
  unfold synth in Hrun. vm_compute in Hrun. injection Hrun as <-.
  reflexivity.
Qed.

(** C5: for the domain "example.com" and the subdomain "api", every
    successful synthesis of the stack publishes the output [ApplicationURL]
    with the value "https://api.example.com"; and the synthesis succeeds as
    soon as the zone of "example.com" is found. *)
Theorem C5_application_url (hostedZones : string -> option string)
    (id : string) :
  (forall s', synth hostedZones id scenarioA = Ok tt s' ->
              lookupOutput "ApplicationURL" (outputSet (trace s'))
              = Some (Lit "https://api.example.com")) /\
  (forall z, hostedZones "example.com" = Some z ->
             exists s', synth hostedZones id scenarioA = Ok tt s').
Proof.
  split.
  - intros s' Hrun.
    apply (synth_application_url hostedZones id scenarioA s' Hrun).
  - intros z Hzone.
    destruct (synth_runs hostedZones id scenarioA z Hzone) as (s' & Hrun & _).
    exists s'. exact Hrun.
Qed.

(** C5 at the stack of [bin/ecs-project.ts], the zone being found. *)
Lemma C5_application_url_witness :
  exampleZones "example.com" = Some "Z0EXAMPLE" /\
  exists s',
    synth exampleZones "EcsProjectStack" scenarioA = Ok tt s' /\
    lookupOutput "ApplicationURL" (outputSet (trace s'))
    = Some (Lit "https://api.example.com").
Proof.
  split; [reflexivity|].
  destruct (C5_application_url exampleZones "EcsProjectStack")
    as [Hurl Hruns].
  destruct (Hruns "Z0EXAMPLE") as [s' Hrun]; [reflexivity|].
  exists s'. split; [exact Hrun | exact (Hurl s' Hrun)].
Defined.

(** The stack leaves no count to its caller: whatever its props, it asks for
    two availability zones and one NAT gateway, for two desired tasks, and
    for between one and ten tasks when scaling. *)
Lemma synth_counts_fixed (hostedZones : string -> option string)
    (id : string) (props : EcsProjectStack.Props) (s' : Stack) :
  synth hostedZones id props = Ok tt s' ->
  exists v svc target,
    declarations asVpc (trace s') = [([id; "Network"; "Vpc"], v)] /\
    vpc_maxAzs v = 2 /\ vpc_natGateways v = 1 /\
    declarations asService (trace s')
      = [([id; "Application"; "Service"], svc)] /\
    svc_desiredCount svc = 2 /\
    declarations asScalableTarget (trace s') = [(target, (1, 10))].
Proof.
  intros Hrun. apply synth_inv in Hrun as (z & Hrun).
  unfold synth in Hrun. vm_compute in Hrun. injection Hrun as <-.
  eexists _, _, _. cbn. repeat split.
Qed.

(** Membership in a list that is written out. *)
Ltac is_there :=
  cbn; repeat first [ apply list_elem_of_here | apply list_elem_of_further ].





(** * Further properties *)

(** ** The record name of the A record *)










(** ** The database on its own *)

(** X4: the remaining props of the database go to the instance as they are
    given, 20 and 100 gigabytes and a t3.micro standing in for what is
    absent; the allocated storage is not compared with the maximum. *)
Theorem database_sizing_passed_through (scope : Path) (id : string)
    (props : DatabaseConstruct.Props) (s : Stack) :
  exists db s' evs i,
    DatabaseConstruct.new scope id props s = Ok db s' /\
    adds s s' evs /\
    declarations asDatabaseInstance evs
      = [(DatabaseConstruct.instance db, i)] /\
    dbi_allocatedStorage i = DatabaseConstruct.allocatedStorage props ?? 20 /\
    dbi_maxAllocatedStorage i
      = DatabaseConstruct.maxAllocatedStorage props ?? 100 /\
    dbi_instanceType i = DatabaseConstruct.instanceType props ?? T3_MICRO.
Proof.
  unfold DatabaseConstruct.new. run.
  eexists _, _, _, _. split; [reflexivity|]. split; [collect|].
  cbn. repeat split.
Qed.

(** X5: the database construct is wired to itself and to the network it is
    given.  Its secret is declared before its instance, which takes its
    credentials from that secret; the instance sits in the isolated subnets
    of the given network, behind the construct's own security group and no
    other, and that group belongs to the same network; the endpoint and the
    port that the construct exposes are attributes of that instance. *)
Theorem database_wiring (scope : Path) (id : string)
    (props : DatabaseConstruct.Props) (s : Stack) :
  exists db s' g c i,
    DatabaseConstruct.new scope id props s = Ok db s' /\
    adds s s'
      [ Created (child scope id) "Secret" (Secret c);
        Created (child scope id) "SecurityGroup"
          (SecurityGroupR (DatabaseConstruct.securityGroup db));
        Created (child scope id) "Instance" (DatabaseInstance i);
        Tagged (DatabaseConstruct.instance db) "Component" "Database";
        Tagged (DatabaseConstruct.secret db) "Component" "Database" ] /\
    DatabaseConstruct.secret db = child (child scope id) "Secret" /\
    DatabaseConstruct.instance db = child (child scope id) "Instance" /\
    credentials i = DatabaseConstruct.secret db /\
    dbi_securityGroups i = [DatabaseConstruct.securityGroup db] /\
    dbi_vpc i = DatabaseConstruct.vpc props /\
    dbi_vpcSubnets i = PRIVATE_ISOLATED /\
    securityGroups s' !! DatabaseConstruct.securityGroup db = Some g /\
    sg_vpc g = DatabaseConstruct.vpc props /\
    DatabaseConstruct.endpoint db
      = Att (DatabaseConstruct.instance db) "Endpoint.Address" /\
    DatabaseConstruct.port db
      = NumAtt (DatabaseConstruct.instance db) "Endpoint.Port".
Proof.
  unfold DatabaseConstruct.new. run.
  eexists _, _, _, _, _. split; [reflexivity|]. split; [collect|].
  cbn. do 6 (split; [reflexivity|]).
  split; [apply lookup_fresh|]. repeat split.
Qed.

(** X10: on the stack that the database's constructor leaves,
    [allowConnectionsFrom] succeeds exactly for the sources that have a
    security group.  For a security group, or a connectable whose
    connections have at least one, the database's group gets the one rule
    for the first of them, with the description given or "Allow database
    connection"; for a connectable with no security group it throws. *)
Theorem allowConnectionsFrom_needs_source_group (scope : Path) (id : string)
    (props : DatabaseConstruct.Props) (s : Stack) :
  exists db s1,
    DatabaseConstruct.new scope id props s = Ok db s1 /\
    forall source description,
      match source with
      | IsSecurityGroup src | HasConnections (src :: _) =>
          exists s2 g,
            DatabaseConstruct.allowConnectionsFrom db source description s1
              = Ok tt s2 /\
            securityGroups s2 !! DatabaseConstruct.securityGroup db = Some g /\
            ingressRules g
              = [{| rule_peer := sgPeer src;
                    rule_port := tcp (DatabaseConstruct.port db);
                    rule_description :=
                      description ?? "Allow database connection" |}]
      | HasConnections [] =>
          exists msg,
            DatabaseConstruct.allowConnectionsFrom db source description s1
              = Err (TypeError msg)
      end.
Proof.
  destruct (DatabaseConstruct_new_group scope id props s)
    as (db & s1 & g & Hrun & Hh & Hsgs & _ & Hin & _).
  exists db, s1. split; [exact Hrun|].
  assert (securityGroups s1 !! DatabaseConstruct.securityGroup db = Some g)
    as Hg by (rewrite Hsgs, Hh; apply lookup_fresh).
  assert (forall src source description,
            DatabaseConstruct.sourceGroup source = Some src ->
            exists s2 g2,
              DatabaseConstruct.allowConnectionsFrom db source description s1
                = Ok tt s2 /\
              securityGroups s2 !! DatabaseConstruct.securityGroup db
                = Some g2 /\
              ingressRules g2 = [connectionRule db src description]) as Hok.
  { intros src source description Hsrc.
    rewrite (allowConnectionsFrom_run db source description s1 g src Hg Hsrc)
      by (rewrite Hin; reflexivity).
    eexists _, _. split; [reflexivity|]. cbn.
    split; [apply list_lookup_insert_eq; eapply lookup_lt_Some; exact Hg|].
    cbn. rewrite Hin. reflexivity. }
  intros [src|[|src rest]] description.
  - apply Hok. reflexivity.
  - eexists. reflexivity.
  - apply Hok. reflexivity.
Qed.

(** X11: a grant may come at any later time.  Whatever runs between the
    database's constructor and [allowConnectionsFrom], as long as it leaves
    the existing security groups as they are (as every constructor of the
    repository does), the grant succeeds for a source that has a security
    group and leaves the database's group with that one rule. *)
Theorem grant_after_other_constructs {A} (scope : Path) (id : string)
    (props : DatabaseConstruct.Props) (s s1 s2 : Stack)
    (db : DatabaseConstruct.t) (between : M A) (a : A)
    (source : IConnectable) (src : SgHandle) (description : option string)
    (Hnew : DatabaseConstruct.new scope id props s = Ok db s1)
    (Hframe : preservesGroups between)
    (Hbetween : between s1 = Ok a s2)
    (Hsrc : DatabaseConstruct.sourceGroup source = Some src) :
  exists s3 g,
    DatabaseConstruct.allowConnectionsFrom db source description s2
      = Ok tt s3 /\
    securityGroups s3 !! DatabaseConstruct.securityGroup db = Some g /\
    ingressRules g = [connectionRule db src description] /\
    allowAllOutbound g = false /\
    length (securityGroups s3) = length (securityGroups s2).
Proof.
  destruct (DatabaseConstruct_new_group scope id props s)
    as (db' & s1' & g & Hrun & Hh & Hsgs & Hout & Hin & _).
  rewrite Hnew in Hrun. injection Hrun as <- <-.
  assert (securityGroups s2 !! DatabaseConstruct.securityGroup db = Some g)
    as Hg.
  { specialize (Hframe s1). rewrite Hbetween in Hframe.
    eapply prefix_lookup_Some; [|exact Hframe].
    rewrite Hsgs, Hh. apply lookup_fresh. }
  rewrite (allowConnectionsFrom_run db source description s2 g src Hg Hsrc)
    by (rewrite Hin; reflexivity).
  eexists _, _. split; [reflexivity|]. cbn.
  split; [apply list_lookup_insert_eq; eapply lookup_lt_Some; exact Hg|].
  cbn. rewrite Hin, Hout. split; [reflexivity|]. split; [reflexivity|].
  apply length_insert.
Qed.

(** X11 with a jumphost created in between, and opened to it. *)
Lemma grant_after_other_constructs_witness :
  exists db s1 j s2 s3 g,
    DatabaseConstruct.new ["App"] "Database" (database ["Vpc"] None)
      emptyStack = Ok db s1 /\
    JumphostConstruct.new ["App"] "Jumphost" (jumphost ["Vpc"] None) s1
      = Ok j s2 /\
    DatabaseConstruct.allowConnectionsFrom db
      (IsSecurityGroup (JumphostConstruct.securityGroup j)) None s2
      = Ok tt s3 /\
    securityGroups s3 !! DatabaseConstruct.securityGroup db = Some g /\
    ingressRules g
      = [connectionRule db (JumphostConstruct.securityGroup j) None].
Proof.
  destruct (DatabaseConstruct.new ["App"] "Database" (database ["Vpc"] None)
              emptyStack) as [db s1|e] eqn:Hnew; [|discriminate Hnew].
  destruct (JumphostConstruct.new ["App"] "Jumphost" (jumphost ["Vpc"] None)
              s1) as [j s2|e] eqn:Hj;
    [|vm_compute in Hnew; injection Hnew as <- <-; discriminate Hj].
  destruct (grant_after_other_constructs ["App"] "Database"
              (database ["Vpc"] None) emptyStack s1 s2 db
              (JumphostConstruct.new ["App"] "Jumphost"
                 (jumphost ["Vpc"] None)) j
              (IsSecurityGroup (JumphostConstruct.securityGroup j))
              (JumphostConstruct.securityGroup j) None)
    as (s3 & g & Hallow & Hg & Hin & _);
    [exact Hnew | apply preservesGroups_Jumphost | exact Hj | reflexivity |].
  exists db, s1, j, s2, s3, g. repeat split; assumption.
Defined.

(** ** The jumphost on its own *)

(** X6: the jumphost construct is wired to itself and to the network it is
    given.  Its one instance sits in the public subnets of the given
    network, with the key pair and behind the security group that the
    construct has created, and that group belongs to the same network; the
    key pair has the name given, or "springboot-jumphost-key"; the
    bootstrap commands are the same whatever the props, and a change of
    them replaces the instance. *)
Theorem jumphost_wiring (scope : Path) (id : string)
    (props : JumphostConstruct.Props) (s : Stack) :
  exists j s' evs g k i,
    JumphostConstruct.new scope id props s = Ok j s' /\
    adds s s' evs /\
    declarations asKeyPair evs = [(JumphostConstruct.keyPair j, k)] /\
    kp_keyPairName k
      = JumphostConstruct.keyPairName props ?? "springboot-jumphost-key" /\
    declarations asInstance evs = [(JumphostConstruct.instance j, i)] /\
    declarations asSecurityGroup evs
      = [(child (child scope id) "SecurityGroup",
          JumphostConstruct.securityGroup j)] /\
    inst_keyPair i = JumphostConstruct.keyPair j /\
    inst_securityGroup i = JumphostConstruct.securityGroup j /\
    inst_vpc i = JumphostConstruct.vpc props /\
    inst_vpcSubnets i = PUBLIC /\
    inst_instanceType i = JumphostConstruct.instanceType props ?? T3_MICRO /\
    userData i = JumphostConstruct.setupUserData /\
    userDataCausesReplacement i = true /\
    securityGroups s' !! JumphostConstruct.securityGroup j = Some g /\
    sg_vpc g = JumphostConstruct.vpc props /\
    JumphostConstruct.instanceId j
      = Att (JumphostConstruct.instance j) "InstanceId" /\
    JumphostConstruct.publicIp j
      = Att (JumphostConstruct.instance j) "PublicIp".
Proof.
  unfold JumphostConstruct.new.
  destruct (JumphostConstruct.allowSshFromAnywhere props ?? true).
  - unfold mbind, M_bind, bind, create, emit, newSecurityGroup,
      addIngressRule, addTag, mret, M_ret, ret.
    simpl. rewrite lookup_fresh. simpl. rewrite insert_fresh.
    eexists _, _, _, _, _, _. split; [reflexivity|]. split; [collect|].
    cbn. do 11 (split; [reflexivity|]).
    split; [apply lookup_fresh|]. repeat split.
  - run. eexists _, _, _, _, _, _. split; [reflexivity|]. split; [collect|].
    cbn. do 11 (split; [reflexivity|]).
    split; [apply lookup_fresh|]. repeat split.
Qed.

(** ** The application on its own *)





(** ** The stack as a whole *)

(** Replaces the stack that a successful synthesis leaves by what it is. *)
Ltac synthesised Hrun :=
  let z := fresh "z" in
  apply synth_inv in Hrun as (z & Hrun);
  unfold synth in Hrun; vm_compute in Hrun; injection Hrun as <-.

Lemma example_synth :
  exists s', synth exampleZones "EcsProjectStack" scenarioA = Ok tt s'.
Proof.
  destruct (synth_runs exampleZones "EcsProjectStack" scenarioA "Z0EXAMPLE")
    as (s' & Hrun & _); [reflexivity|].
  exists s'. exact Hrun.
Qed.

(** Without a zone in the context, the synthesis is the one of an empty
    context. *)
Lemma synth_no_zone (hostedZones : string -> option string) (id : string)
    (props : EcsProjectStack.Props) :
  hostedZones (EcsProjectStack.domainName props ?? "oazis.site") = None ->
  synth hostedZones id props = synth (fun _ => None) id props.
Proof.
  intros Hzone.
  unfold synth, EcsProjectStack.new, DnsConstruct.new, DnsConstruct.fromLookup.
  cbn [DnsConstruct.domainName]. rewrite Hzone. reflexivity.
Qed.

(** X3: what the lookup of the zone does to a synthesis.  The stack looks
    up its domain, the one given or "oazis.site", not the full name.  For a
    stack with an account and a region and a domain that is not empty, the
    synthesis runs to the end whether the context holds the zone or not:
    the zone that it declares is the one of the context, or the library's
    placeholder "DUMMY", so that a zone that is missing is no error of the
    synthesis.  With no zone in the context, a stack that lacks the account
    or the region, or whose domain is empty, stops in the lookup with an
    error of the library. *)
Theorem synth_and_the_zone_lookup (hostedZones : string -> option string)
    (id : string) (props : EcsProjectStack.Props) :
  if resolved (EcsProjectStack.env props ?? noEnvironment)
     && negb (String.eqb (EcsProjectStack.domainName props ?? "oazis.site")
                EmptyString)
  then
    exists s',
      synth hostedZones id props = Ok tt s' /\
      Created [id; "Dns"] "HostedZone"
        (HostedZoneLookup
           (EcsProjectStack.domainName props ?? "oazis.site")
           (hostedZones (EcsProjectStack.domainName props ?? "oazis.site")
              ?? "DUMMY"))
        ∈ trace s'
  else
    hostedZones (EcsProjectStack.domainName props ?? "oazis.site") = None ->
    exists msg, synth hostedZones id props = Err (LibraryError msg).
Proof.
  destruct (hostedZones (EcsProjectStack.domainName props ?? "oazis.site"))
    as [z|] eqn:Hzone.
  - destruct (resolved _ && negb _); [|discriminate].
    destruct (synth_runs hostedZones id props z Hzone) as (s' & Hrun & Hz).
    exists s'. split; [exact Hrun|].
    unfold synth in Hz. vm_compute in Hz. injection Hz as <-. is_there.
  - rewrite (synth_no_zone hostedZones id props Hzone). clear Hzone.
    destruct props as [e d sub].
    destruct d as [[|c d]|]; destruct e as [[[a|] [r|]]|]; cbn;
      try (intros _; eexists; vm_compute; reflexivity);
      (eexists; split; [vm_compute; reflexivity | is_there]).
Qed.

(** X3 at the stack of [bin/ecs-project.ts] with neither account nor region
    in the environment of the process, and at the same stack for an account
    and a region, the context being empty both times. *)
Lemma synth_and_the_zone_lookup_witness :
  (exists msg,
     main (fun _ => None) None None = Err (LibraryError msg)) /\
  (exists s',
     main (fun _ => None) (Some "123456789012") (Some "us-east-1")
       = Ok tt s' /\
     Created ["EcsProjectStack"; "Dns"] "HostedZone"
       (HostedZoneLookup "oazis.site" "DUMMY") ∈ trace s').
Proof.
  split.
  - apply (synth_and_the_zone_lookup (fun _ => None) "EcsProjectStack"
             {| EcsProjectStack.env :=
                  Some {| account := None; region := None |};
                EcsProjectStack.domainName := None;
                EcsProjectStack.subdomainName := None |}).
    reflexivity.
  - apply (synth_and_the_zone_lookup (fun _ => None) "EcsProjectStack"
             {| EcsProjectStack.env :=
                  Some {| account := Some "123456789012";
                          region := Some "us-east-1" |};
                EcsProjectStack.domainName := None;
                EcsProjectStack.subdomainName := None |}).
Defined.

(** X13: at the end of a synthesis the stack has four security groups:
    those of the database, of the jumphost, of the load balancer and of the
    service, created in this order.  The database's group is closed
    outbound and open to exactly two peers, the jumphost's group and the
    service's group, both on the port of the database's endpoint; the stack
    always leaves the jumphost open to SSH from anywhere; and these three
    are all the ingress rules that the repository adds: it puts none on the
    two groups of the application, whose rules are the library's. *)
Theorem stack_security_groups (hostedZones : string -> option string)
    (id : string) (props : EcsProjectStack.Props) (s' : Stack)
    (Hrun : synth hostedZones id props = Ok tt s') :
  exists dbg jhg lbg appg,
    securityGroups s' = [dbg; jhg; lbg; appg] /\
    declarations asSecurityGroup (trace s')
      = [ ([id; "Database"; "SecurityGroup"], 0%nat);
          ([id; "Jumphost"; "SecurityGroup"], 1%nat);
          ([id; "Application"; "Service"; "LB"; "SecurityGroup"], 2%nat);
          ([id; "Application"; "Service"; "Service"; "SecurityGroup"],
           3%nat) ] /\
    allowAllOutbound dbg = false /\
    egressRules dbg = [] /\
    ingressRules dbg
      = [ {| rule_peer := sgPeer 1%nat;
             rule_port :=
               tcp (NumAtt [id; "Database"; "Instance"] "Endpoint.Port");
             rule_description := "Allow jumphost to connect to database" |};
          {| rule_peer := sgPeer 3%nat;
             rule_port :=
               tcp (NumAtt [id; "Database"; "Instance"] "Endpoint.Port");
             rule_description :=
               "Allow ECS service to connect to database" |} ] /\
    allowAllOutbound jhg = true /\
    ingressRules jhg = [sshFromAnywhere] /\
    ingressAdded (trace s')
      = [ (1%nat, anyIpv4); (0%nat, sgPeer 1%nat); (0%nat, sgPeer 3%nat) ].
Proof.
  synthesised Hrun. eexists _, _, _, _. cbn. repeat split.
Qed.

(** X13 at the stack of [bin/ecs-project.ts] for "api.example.com". *)
Lemma stack_security_groups_witness :
  exists s' dbg jhg lbg appg,
    synth exampleZones "EcsProjectStack" scenarioA = Ok tt s' /\
    securityGroups s' = [dbg; jhg; lbg; appg] /\
    map rule_peer (ingressRules dbg) = [sgPeer 1%nat; sgPeer 3%nat] /\
    ingressRules jhg = [sshFromAnywhere].
Proof.
  destruct example_synth as [s' Hrun].
  destruct (stack_security_groups exampleZones "EcsProjectStack" scenarioA
              s' Hrun)
    as (dbg & jhg & lbg & appg & Hsgs & _ & _ & _ & Hdb & _ & Hjh & _).
  exists s', dbg, jhg, lbg, appg. split; [exact Hrun|]. split; [exact Hsgs|].
  rewrite Hdb. split; [reflexivity | exact Hjh].
Defined.

(** X14: the stack declares everything in the order of its dependencies.
    Along the trace of a synthesis, every declaration refers only to
    constructs declared before it (the network before the database, the
    jumphost and the cluster; the zone before the certificate; the secret
    before the instance; the certificate, the cluster, the log group and
    the database before the service; the load balancer before the A record
    and the outputs), and every tag is put on a resource that exists. *)
Theorem stack_dependency_order (hostedZones : string -> option string)
    (id : string) (props : EcsProjectStack.Props) (s' : Stack)
    (Hrun : synth hostedZones id props = Ok tt s') :
  ordered [] (trace s').
Proof.
  synthesised Hrun. cbn.
  repeat (split;
          [repeat (apply Forall_cons; split; [is_there|]);
           apply Forall_nil; exact I|]).
  exact I.
Qed.

(** X14 at the stack of [bin/ecs-project.ts] for "api.example.com". *)
Lemma stack_dependency_order_witness :
  exists s',
    synth exampleZones "EcsProjectStack" scenarioA = Ok tt s' /\
    ordered [] (trace s').
Proof.
  destruct example_synth as [s' Hrun]. exists s'. split; [exact Hrun|].
  exact (stack_dependency_order exampleZones "EcsProjectStack" scenarioA
           s' Hrun).
Defined.

(** X15: the stack issues its certificate for the very name it publishes.
    With the subdomain given or "spring" and the domain given or
    "oazis.site", the one certificate is for the subdomain, a dot and the
    domain, validated in the zone looked up, with the wildcard of the
    domain as its only alternative name, and the output [ApplicationURL]
    is "https://" followed by the name of the certificate. *)
Theorem stack_url_matches_certificate
    (hostedZones : string -> option string) (id : string)
    (props : EcsProjectStack.Props) (s' : Stack)
    (Hrun : synth hostedZones id props = Ok tt s') :
  exists c,
    declarations asCertificate (trace s') = [([id; "Dns"; "Certificate"], c)] /\
    cert_domainName c
      = EcsProjectStack.subdomainName props ?? "spring" +:+ "."
        +:+ EcsProjectStack.domainName props ?? "oazis.site" /\
    cert_subjectAlternativeNames c
      = ["*." +:+ EcsProjectStack.domainName props ?? "oazis.site"] /\
    cert_validation c = [id; "Dns"; "HostedZone"] /\
    lookupOutput "ApplicationURL" (outputSet (trace s'))
      = Some (Lit ("https://" +:+ cert_domainName c)).
Proof.
  synthesised Hrun. eexists. cbn. repeat split.
Qed.

(** X15 at the stack of [bin/ecs-project.ts] for "api.example.com". *)
Lemma stack_url_matches_certificate_witness :
  exists s' c,
    synth exampleZones "EcsProjectStack" scenarioA = Ok tt s' /\
    declarations asCertificate (trace s')
      = [(["EcsProjectStack"; "Dns"; "Certificate"], c)] /\
    cert_domainName c = "api.example.com" /\
    lookupOutput "ApplicationURL" (outputSet (trace s'))
      = Some (Lit "https://api.example.com").
Proof.
  destruct example_synth as [s' Hrun].
  destruct (stack_url_matches_certificate exampleZones "EcsProjectStack"
              scenarioA s' Hrun) as (c & Hdecl & Hname & _ & _ & Hurl).
  exists s', c. split; [exact Hrun|]. split; [exact Hdecl|].
  split; [exact Hname|]. rewrite Hurl, Hname. reflexivity.
Defined.

(** X16: the stack points the application at its own database.  The
    containers get as DATABASE_HOST and DATABASE_PORT the endpoint
    attributes of the one database instance, as DATABASE_NAME the name that
    this instance is created with, and their two secrets from the secret
    that the instance takes its credentials from; the cluster, the database
    and the jumphost are all in the one network that the stack declares. *)
Theorem stack_application_uses_database
    (hostedZones : string -> option string) (id : string)
    (props : EcsProjectStack.Props) (s' : Stack)
    (Hrun : synth hostedZones id props = Ok tt s') :
  exists v i svc c j,
    declarations asVpc (trace s') = [([id; "Network"; "Vpc"], v)] /\
    declarations asDatabaseInstance (trace s')
      = [([id; "Database"; "Instance"], i)] /\
    declarations asService (trace s')
      = [([id; "Application"; "Service"], svc)] /\
    declarations asCluster (trace s')
      = [([id; "Application"; "Cluster"], c)] /\
    declarations asInstance (trace s') = [([id; "Jumphost"; "Instance"], j)] /\
    environment (taskImageOptions svc)
      = [ ("SPRING_PROFILES_ACTIVE", Lit "prod");
          ("SERVER_PORT", Lit "8080");
          ("DATABASE_HOST",
           Att [id; "Database"; "Instance"] "Endpoint.Address");
          ("DATABASE_PORT",
           NumToString (NumAtt [id; "Database"; "Instance"] "Endpoint.Port"));
          ("DATABASE_NAME", Lit (dbi_databaseName i)) ] /\
    secrets (taskImageOptions svc)
      = [ ("DATABASE_USERNAME", (credentials i, "username"));
          ("DATABASE_PASSWORD", (credentials i, "password")) ] /\
    svc_cluster svc = [id; "Application"; "Cluster"] /\
    svc_certificate svc = [id; "Dns"; "Certificate"] /\
    dbi_vpc i = [id; "Network"; "Vpc"] /\
    cluster_vpc c = [id; "Network"; "Vpc"] /\
    inst_vpc j = [id; "Network"; "Vpc"].
Proof.
  synthesised Hrun. eexists _, _, _, _, _. cbn. repeat split.
Qed.

(** X16 at the stack of [bin/ecs-project.ts] for "api.example.com". *)
Lemma stack_application_uses_database_witness :
  exists s' i svc,
    synth exampleZones "EcsProjectStack" scenarioA = Ok tt s' /\
    declarations asDatabaseInstance (trace s')
      = [(["EcsProjectStack"; "Database"; "Instance"], i)] /\
    declarations asService (trace s')
      = [(["EcsProjectStack"; "Application"; "Service"], svc)] /\
    environment (taskImageOptions svc) !! 4%nat
      = Some ("DATABASE_NAME", Lit (dbi_databaseName i)).
Proof.
  destruct example_synth as [s' Hrun].
  destruct (stack_application_uses_database exampleZones "EcsProjectStack"
              scenarioA s' Hrun)
    as (v & i & svc & c & j & _ & Hi & Hsvc & _ & _ & Henv & _).
  exists s', i, svc. split; [exact Hrun|]. split; [exact Hi|].
  split; [exact Hsvc|]. rewrite Henv. reflexivity.
Defined.

(** X17: a synthesis publishes eleven outputs, at eleven different paths.
    Two are the library's, under the service of the application: the DNS
    name of the load balancer and the URL of the service over it.  The
    other nine are the stack's own, and of these only the URL is a value of
    its own: the other eight are attributes of the load balancer, the
    cluster, the registry, the database instance, its secret, the
    jumphost's instance and its key pair, so that the secret is published
    as its ARN and never as its content. *)
Theorem stack_outputs (hostedZones : string -> option string)
    (id : string) (props : EcsProjectStack.Props) (s' : Stack)
    (Hrun : synth hostedZones id props = Ok tt s') :
  declarations asOutput (trace s')
  = [ ([id; "Application"; "Service"; "LoadBalancerDNS"],
       Att [id; "Application"; "Service"; "LB"] "DNSName");
      ([id; "Application"; "Service"; "ServiceURL"],
       Append (Lit "https://")
         (Att [id; "Application"; "Service"; "LB"] "DNSName"));
      ([id; "ApplicationURL"],
       Lit ("https://" +:+ EcsProjectStack.subdomainName props ?? "spring"
            +:+ "." +:+ EcsProjectStack.domainName props ?? "oazis.site"));
      ([id; "LoadBalancerDNS"],
       Att [id; "Application"; "Service"; "LB"] "DNSName");
      ([id; "ClusterName"], Att [id; "Application"; "Cluster"] "clusterName");
      ([id; "ECRRepositoryURI"],
       Att [id; "Application"; "Repository"] "repositoryUri");
      ([id; "DatabaseEndpoint"],
       Att [id; "Database"; "Instance"] "Endpoint.Address");
      ([id; "DatabaseSecretArn"], Att [id; "Database"; "Secret"] "secretArn");
      ([id; "JumphostInstanceId"],
       Att [id; "Jumphost"; "Instance"] "InstanceId");
      ([id; "JumphostPublicIP"], Att [id; "Jumphost"; "Instance"] "PublicIp");
      ([id; "SSHKeyPairName"],
       Att [id; "Jumphost"; "KeyPair"] "keyPairName") ] /\
  NoDup (map fst (declarations asOutput (trace s'))).
Proof.
  synthesised Hrun. split; [reflexivity|]. cbn.
  repeat (apply NoDup_cons; split;
          [rewrite ?elem_of_cons, elem_of_nil; intros H;
           repeat (destruct H as [H|H]; [discriminate H|]); exact H|]).
  apply NoDup_nil. exact I.
Qed.

(** X17 at the stack of [bin/ecs-project.ts] for "api.example.com". *)
Lemma stack_outputs_witness :
  exists s',
    synth exampleZones "EcsProjectStack" scenarioA = Ok tt s' /\
    map fst (outputSet (trace s'))
    = [ "LoadBalancerDNS"; "ServiceURL";
        "ApplicationURL"; "LoadBalancerDNS"; "ClusterName";
        "ECRRepositoryURI"; "DatabaseEndpoint"; "DatabaseSecretArn";
        "JumphostInstanceId"; "JumphostPublicIP"; "SSHKeyPairName" ] /\
    length (declarations asOutput (trace s')) = 11%nat.
Proof.
  destruct example_synth as [s' Hrun].
  destruct (stack_outputs exampleZones "EcsProjectStack" scenarioA s' Hrun)
    as [Hout _].
  exists s'. split; [exact Hrun|]. rewrite Hout.
  split; [|reflexivity].
  apply synth_inv in Hrun as (z & Hrun).
  unfold synth in Hrun. vm_compute in Hrun. injection Hrun as <-.
  reflexivity.
Defined.

(** X18: the names that the stack gives to its resources depend neither on
    its id nor on its props.  Any two syntheses, whatever their ids, their
    domains and their zones, name the registry, the log group, the cluster,
    the service and the key pair alike, so that two such stacks ask the
    provider for the same names. *)
Theorem stack_names_are_fixed
    (zones1 zones2 : string -> option string) (id1 id2 : string)
    (props1 props2 : EcsProjectStack.Props) (s1 s2 : Stack)
    (Hrun1 : synth zones1 id1 props1 = Ok tt s1)
    (Hrun2 : synth zones2 id2 props2 = Ok tt s2) :
  map (fun d => repositoryName (snd d)) (declarations asRepository (trace s1))
  = map (fun d => repositoryName (snd d))
      (declarations asRepository (trace s2)) /\
  map (fun d => logGroupName (snd d)) (declarations asLogGroup (trace s1))
  = map (fun d => logGroupName (snd d)) (declarations asLogGroup (trace s2)) /\
  map (fun d => clusterName (snd d)) (declarations asCluster (trace s1))
  = map (fun d => clusterName (snd d)) (declarations asCluster (trace s2)) /\
  map (fun d => serviceName (snd d)) (declarations asService (trace s1))
  = map (fun d => serviceName (snd d)) (declarations asService (trace s2)) /\
  map (fun d => kp_keyPairName (snd d)) (declarations asKeyPair (trace s1))
  = map (fun d => kp_keyPairName (snd d)) (declarations asKeyPair (trace s2)) /\
  map (fun d => repositoryName (snd d)) (declarations asRepository (trace s1))
  = ["spring-boot-app"].
Proof.
  synthesised Hrun1. synthesised Hrun2. cbn. repeat split.
Qed.

(** X18 at the stack of [bin/ecs-project.ts], once for "api.example.com"
    and once, under another id, for the default "spring.oazis.site". *)
Lemma stack_names_are_fixed_witness :
  exists s1 s2,
    synth exampleZones "EcsProjectStack" scenarioA = Ok tt s1 /\
    synth (fun _ => Some "Z1") "Dev" EcsProjectStack.noProps = Ok tt s2 /\
    map (fun d => clusterName (snd d)) (declarations asCluster (trace s1))
    = map (fun d => clusterName (snd d)) (declarations asCluster (trace s2)).
Proof.
  destruct example_synth as [s1 Hrun1].
  destruct (synth_runs (fun _ => Some "Z1") "Dev" EcsProjectStack.noProps
              "Z1") as (s2 & Hrun2 & _); [reflexivity|].
  destruct (stack_names_are_fixed exampleZones (fun _ => Some "Z1")
              "EcsProjectStack" "Dev" scenarioA EcsProjectStack.noProps
              s1 s2 Hrun1 Hrun2) as (_ & _ & Hcluster & _).
  exists s1, s2. split; [exact Hrun1|]. split; [exact Hrun2|].
  exact Hcluster.
Defined.

(** X19: the stack keeps nothing at its removal.  Whatever its props, the
    database instance is declared without deletion protection and with the
    policy DESTROY, its automated backups are deleted with it, and the
    registry and the log group are declared with the policy DESTROY too. *)
Theorem stack_retains_nothing (hostedZones : string -> option string)
    (id : string) (props : EcsProjectStack.Props) (s' : Stack)
    (Hrun : synth hostedZones id props = Ok tt s') :
  exists i r l,
    declarations asDatabaseInstance (trace s')
      = [([id; "Database"; "Instance"], i)] /\
    dbi_deletionProtection i = false /\
    removalPolicy i = DESTROY /\
    deleteAutomatedBackups i = true /\
    declarations asRepository (trace s')
      = [([id; "Application"; "Repository"], r)] /\
    repo_removalPolicy r = DESTROY /\
    declarations asLogGroup (trace s')
      = [([id; "Application"; "LogGroup"], l)] /\
    lg_removalPolicy l = DESTROY.
Proof.
  synthesised Hrun. eexists _, _, _. cbn. repeat split.
Qed.

(** X19 at the stack of [bin/ecs-project.ts] for "api.example.com". *)
Lemma stack_retains_nothing_witness :
  exists s' i,
    synth exampleZones "EcsProjectStack" scenarioA = Ok tt s' /\
    declarations asDatabaseInstance (trace s')
      = [(["EcsProjectStack"; "Database"; "Instance"], i)] /\
    removalPolicy i = DESTROY.
Proof.
  destruct example_synth as [s' Hrun].
  destruct (stack_retains_nothing exampleZones "EcsProjectStack" scenarioA
              s' Hrun) as (i & r & l & Hi & _ & Hpol & _).
  exists s', i. split; [exact Hrun|]. split; [exact Hi | exact Hpol].
Defined.
